(** * Cache-aside configuration lookups of client-manager

    A shallow embedding of the configuration data-access object
    ([dao.ConfigDAO]), of the configuration service
    ([services.ConfigService]) and of the read endpoints of its controller,
    together with the properties of the read-through cache that sits
    between them and the durable store.

    The two collaborators the code talks to, the ORM-backed relational
    store and the key-value cache, are given as small executable models:
    a table of rows with soft deletion, and a finite map from cache keys
    to a value and the instant at which it expires.  Every call to a
    collaborator may fail; which calls fail is part of the state (a script
    of outcomes that the calls consume), so that a statement quantified
    over all states also ranges over all failure patterns.

    Time is an integer number of nanoseconds, as Go's [time.Duration];
    every operation receives the reading of the clock at which it runs. *)

From Stdlib Require Import ZArith NArith Lia.
From stdpp Require Import gmap strings list fin_maps sorting pretty.

(** ** Errors, log entries *)

(** The values of Go's [error] interface that occur in these paths. *)
Inductive error : Type :=
  | ErrRecordNotFound                       (* gorm.ErrRecordNotFound *)
  | DBError (msg : string)                  (* any other failure of the store *)
  | RedisNil                                (* redis.Nil, the miss sentinel *)
  | RedisError (msg : string)               (* timeout, connection failure *)
  | ValidationError (Field Message : string)
  | ConflictError (Message : string)
  | NotFoundError (Message : string).

#[global] Instance error_eq_dec : EqDecision error.
Proof. solve_decision. Defined.

Inductive level : Type := InfoLevel | WarnLevel | ErrorLevel.

(** One line written through logrus: level, message, the error attached
    with [WithError] and the fields attached with [WithField(s)]. *)
Record Entry : Type := mkEntry {
  Level : level;
  Message : string;
  Err : option error;
  Fields : list (string * string)
}.

(** A script of outcomes for the coming calls to a collaborator: [None]
    lets the call through, [Some msg] makes it fail with that message.
    Beyond the end of the script every call goes through. *)
Definition script : Type := list (option string).

Definition next_outcome (s : script) : option string * script :=
  match s with
  | [] => (None, [])
  | o :: s' => (o, s')
  end.

(** ** The record type *)

Module Models.

(** Modelled from the spec: the declaration of [models.Configuration] is
    not among the sources.  The fields are those the code reads and writes
    ([Namespace], [Key], [Value], [Description], [CreatedAt], [UpdatedAt]),
    the surrogate numeric identifier of the data model, and the tombstone
    of a soft delete.  Instants count nanoseconds from the zero [time.Time],
    so that the zero value of a timestamp is [0]. *)
Record Configuration : Type := mkConfiguration {
  ID : N;
  Namespace : string;
  Key : string;
  Value : string;
  Description : string;
  CreatedAt : Z;
  UpdatedAt : Z;
  DeletedAt : option Z
}.

#[global] Instance Configuration_eq_dec : EqDecision Configuration.
Proof. solve_decision. Defined.

(** [var config models.Configuration] *)
Definition zero : Configuration :=
  mkConfiguration 0 "" "" "" "" 0 0 None.

Definition with_ID (i : N) (c : Configuration) : Configuration :=
  mkConfiguration i (Namespace c) (Key c) (Value c) (Description c)
                  (CreatedAt c) (UpdatedAt c) (DeletedAt c).

Definition with_Namespace (s : string) (c : Configuration) : Configuration :=
  mkConfiguration (ID c) s (Key c) (Value c) (Description c)
                  (CreatedAt c) (UpdatedAt c) (DeletedAt c).

Definition with_Key (s : string) (c : Configuration) : Configuration :=
  mkConfiguration (ID c) (Namespace c) s (Value c) (Description c)
                  (CreatedAt c) (UpdatedAt c) (DeletedAt c).

Definition with_Value (s : string) (c : Configuration) : Configuration :=
  mkConfiguration (ID c) (Namespace c) (Key c) s (Description c)
                  (CreatedAt c) (UpdatedAt c) (DeletedAt c).

Definition with_DeletedAt (d : option Z) (c : Configuration) : Configuration :=
  mkConfiguration (ID c) (Namespace c) (Key c) (Value c) (Description c)
                  (CreatedAt c) (UpdatedAt c) d.

Definition with_Description (s : string) (c : Configuration) : Configuration :=
  mkConfiguration (ID c) (Namespace c) (Key c) (Value c) s
                  (CreatedAt c) (UpdatedAt c) (DeletedAt c).

Definition with_UpdatedAt (t : Z) (c : Configuration) : Configuration :=
  mkConfiguration (ID c) (Namespace c) (Key c) (Value c) (Description c)
                  (CreatedAt c) t (DeletedAt c).

End Models.

Import Models.

(** ** The durable store *)

Module Gorm.

(** The operations the data-access object consumes from the ORM: point
    lookup by composite key and by identifier, insert, full-record write
    and soft delete. *)

(** The table behind [models.Configuration] and the outcomes of the coming
    calls.  Soft-deleted rows stay in the table with [DeletedAt] set. *)
Record DB : Type := mkDB {
  table : list Configuration;
  db_outcomes : script
}.

Definition live (c : Configuration) : bool :=
  bool_decide (DeletedAt c = None).

(** Among the given rows, the one with the least primary key: the row a
    query ordered by primary key and limited to one returns. *)
Definition least_id (rows : list Configuration) : option Configuration :=
  foldr (fun c acc =>
           match acc with
           | None => Some c
           | Some d => if (ID c <=? ID d)%N then Some c else Some d
           end) None rows.

Definition by_key (namespace key : string) (c : Configuration) : bool :=
  live c && bool_decide (Namespace c = namespace) && bool_decide (Key c = key).

Definition by_id (id : N) (c : Configuration) : bool :=
  live c && bool_decide (ID c = id).

(** What the store holds for a pair: the live row with that namespace and
    key, the one with the least identifier if there are several. *)
Definition lookup_key (namespace key : string) (t : list Configuration)
  : option Configuration :=
  least_id (filter (fun c => by_key namespace key c = true) t).

Definition lookup_id (id : N) (t : list Configuration) : option Configuration :=
  least_id (filter (fun c => by_id id c = true) t).

(** [db.Where(cond).First(&dest).Error] for a condition [cond] on rows:
    [dest] is filled from the first live row that satisfies it, and the
    error is [ErrRecordNotFound] when there is none. *)
Definition First (found : option Configuration) (dest : Configuration) (d : DB)
  : Configuration * option error * DB :=
  let '(o, s) := next_outcome (db_outcomes d) in
  let d' := mkDB (table d) s in
  match o with
  | Some msg => (dest, Some (DBError msg), d')
  | None =>
    match found with
    | Some row => (row, None, d')
    | None => (dest, Some ErrRecordNotFound, d')
    end
  end.

(** [db.Where("namespace = ? AND key = ?", namespace, key).First(&dest)] *)
Definition First_where (namespace key : string) (dest : Configuration) (d : DB)
  : Configuration * option error * DB :=
  First (lookup_key namespace key (table d)) dest d.

(** [db.First(&dest, id)] *)
Definition First_id (id : N) (dest : Configuration) (d : DB)
  : Configuration * option error * DB :=
  First (lookup_id id (table d)) dest d.

(** The identifier an insert without one receives. *)
Definition next_id (t : list Configuration) : N :=
  N.succ (foldr (fun c m => N.max (ID c) m) 0%N t).

Definition has_id (id : N) (t : list Configuration) : bool :=
  existsb (fun c => bool_decide (ID c = id)) t.

(** [db.Create(config).Error]: the row is appended, with a fresh
    identifier when [config.ID] is zero; the identifier is written back
    into [config].  The table has no constraint besides the primary key. *)
Definition Create (config : Configuration) (d : DB)
  : Configuration * option error * DB :=
  let '(o, s) := next_outcome (db_outcomes d) in
  match o with
  | Some msg => (config, Some (DBError msg), mkDB (table d) s)
  | None =>
    if bool_decide (ID config = 0%N) then
      let row := with_ID (next_id (table d)) config in
      (row, None, mkDB (table d ++ [row]) s)
    else if has_id (ID config) (table d) then
      (config, Some (DBError "duplicate primary key"), mkDB (table d) s)
    else
      (config, None, mkDB (table d ++ [config]) s)
  end.

Definition replace_id (config : Configuration) (t : list Configuration)
  : list Configuration :=
  map (fun c => if bool_decide (ID c = ID config) then config else c) t.

(** [db.Save(config).Error]: a full-record write by primary key.  Without
    a primary key it is an insert; with one, every column of the row with
    that identifier is overwritten, and the row is inserted if there is
    none. *)
Definition Save (config : Configuration) (d : DB)
  : Configuration * option error * DB :=
  if bool_decide (ID config = 0%N) then Create config d
  else
    let '(o, s) := next_outcome (db_outcomes d) in
    match o with
    | Some msg => (config, Some (DBError msg), mkDB (table d) s)
    | None =>
      if has_id (ID config) (table d) then
        (config, None, mkDB (replace_id config (table d)) s)
      else
        (config, None, mkDB (table d ++ [config]) s)
    end.

Definition tombstone (now : Z) (id : N) (t : list Configuration)
  : list Configuration :=
  map (fun c => if by_id id c then with_DeletedAt (Some now) c else c) t.

(** [db.Delete(&config).Error] for a record with a soft-delete column: the
    live row with the identifier of [config] gets its tombstone. *)
Definition Delete (now : Z) (config : Configuration) (d : DB)
  : option error * DB :=
  let '(o, s) := next_outcome (db_outcomes d) in
  match o with
  | Some msg => (Some (DBError msg), mkDB (table d) s)
  | None => (None, mkDB (tombstone now (ID config) (table d)) s)
  end.

(** [db.First(dest, id)] with a destination the caller supplies: a
    non-zero identifier in [dest] is a further condition of the query. *)
Definition First_into (id : N) (dest : Configuration) (d : DB)
  : Configuration * option error * DB :=
  First (least_id (filter (fun c => by_id id c
                                    && (bool_decide (ID dest = 0%N)
                                        || bool_decide (ID c = ID dest)) = true)
                          (table d)))
        dest d.

(** The live rows that satisfy a condition, in the order of the table. *)
Definition selected (cond : Configuration -> bool) (t : list Configuration)
  : list Configuration :=
  filter (fun c => live c && cond c = true) t.

(** [query.Count(&total).Error]: [total] keeps its zero value when the
    query fails. *)
Definition Count (cond : Configuration -> bool) (d : DB) : Z * option error * DB :=
  let '(o, s) := next_outcome (db_outcomes d) in
  let d' := mkDB (table d) s in
  match o with
  | Some msg => (0%Z, Some (DBError msg), d')
  | None => (Z.of_nat (length (selected cond (table d))), None, d')
  end.

(** [ORDER BY created_at DESC] and [ORDER BY key ASC]; keys compare as
    strings of bytes. *)
Definition by_created_at_desc (c d : Configuration) : Prop :=
  (CreatedAt d <= CreatedAt c)%Z.

Definition by_key_asc (c d : Configuration) : Prop :=
  String.le (Key c) (Key d).

#[global] Instance by_created_at_desc_dec : RelDecision by_created_at_desc.
Proof. intros c d. unfold by_created_at_desc. apply _. Defined.

#[global] Instance by_key_asc_dec : RelDecision by_key_asc.
Proof. intros c d. unfold by_key_asc. apply _. Defined.

(** [OFFSET] and [LIMIT] as the ORM writes them: an offset is written when
    it is positive, a limit when it is not negative. *)
Definition window (offset limit : Z) (rows : list Configuration)
  : list Configuration :=
  let rows := if (0 <? offset)%Z then drop (Z.to_nat offset) rows else rows in
  if (0 <=? limit)%Z then take (Z.to_nat limit) rows else rows.

(** [query.Offset(offset).Limit(limit).Order("created_at DESC").Find(&configs).Error] *)
Definition Find_page (cond : Configuration -> bool) (offset limit : Z) (d : DB)
  : list Configuration * option error * DB :=
  let '(o, s) := next_outcome (db_outcomes d) in
  let d' := mkDB (table d) s in
  match o with
  | Some msg => ([], Some (DBError msg), d')
  | None =>
    (window offset limit (merge_sort by_created_at_desc (selected cond (table d))),
     None, d')
  end.

(** [db.Where(cond).Order("key ASC").Find(&configs).Error] *)
Definition Find_by_key (cond : Configuration -> bool) (d : DB)
  : list Configuration * option error * DB :=
  let '(o, s) := next_outcome (db_outcomes d) in
  let d' := mkDB (table d) s in
  match o with
  | Some msg => ([], Some (DBError msg), d')
  | None => (merge_sort by_key_asc (selected cond (table d)), None, d')
  end.

End Gorm.

(** ** The cache *)

Module Redis.

(** The operations the data-access object consumes from the cache: get
    by key, which tells a miss from a failure, set with a time to live,
    and delete by key. *)

(** The keys held by the server, each with its value and the instant at
    which it expires, and the outcomes of the coming calls. *)
Record Client : Type := mkClient {
  entries : gmap string (string * Z);
  redis_outcomes : script
}.

(** The value the server holds under [key] at instant [now]: an entry is
    gone once its expiry instant is reached. *)
Definition held (now : Z) (key : string) (m : gmap string (string * Z))
  : option string :=
  match m !! key with
  | Some (v, expiry) => if bool_decide (now < expiry)%Z then Some v else None
  | None => None
  end.

(** [client.Get(ctx, key).Result()] *)
Definition Get (now : Z) (key : string) (r : Client)
  : string * option error * Client :=
  let '(o, s) := next_outcome (redis_outcomes r) in
  let r' := mkClient (entries r) s in
  match o with
  | Some msg => ("", Some (RedisError msg), r')
  | None =>
    match held now key (entries r) with
    | Some v => (v, None, r')
    | None => ("", Some RedisNil, r')
    end
  end.

(** [client.Set(ctx, key, value, ttl).Err()]; a failed call leaves the
    server as it was. *)
Definition Set_ (now : Z) (key value : string) (ttl : Z) (r : Client)
  : option error * Client :=
  let '(o, s) := next_outcome (redis_outcomes r) in
  match o with
  | Some msg => (Some (RedisError msg), mkClient (entries r) s)
  | None => (None, mkClient (<[key := (value, (now + ttl)%Z)]> (entries r)) s)
  end.

(** [client.Del(ctx, key).Err()]; a failed call leaves the server as it
    was. *)
Definition Del (key : string) (r : Client) : option error * Client :=
  let '(o, s) := next_outcome (redis_outcomes r) in
  match o with
  | Some msg => (Some (RedisError msg), mkClient (entries r) s)
  | None => (None, mkClient (delete key (entries r)) s)
  end.

End Redis.

(** [time.Minute], in nanoseconds. *)
Definition Minute : Z := 60 * 1000000000.

(** The value of an integer expression in Go's 64-bit [int] and [int64]:
    results wrap around. *)
Definition int64 (z : Z) : Z := ((z + 2 ^ 63) mod 2 ^ 64 - 2 ^ 63)%Z.

(** ** The data-access object *)

Module Dao.

(** [ConfigDAO]: the store, the cache client ([None] is the nil client of
    a deployment without cache) and the logger. *)
Record ConfigDAO : Type := mkConfigDAO {
  db : Gorm.DB;
  redis : option Redis.Client;
  log : list Entry
}.

Definition set_db (d : Gorm.DB) (dao : ConfigDAO) : ConfigDAO :=
  mkConfigDAO d (redis dao) (log dao).

Definition set_redis (r : option Redis.Client) (dao : ConfigDAO) : ConfigDAO :=
  mkConfigDAO (db dao) r (log dao).

(** [dao.log.WithError(err).WithField("cache_key", cacheKey).Warn(msg)] *)
Definition Warn (e : error) (cacheKey msg : string) (dao : ConfigDAO) : ConfigDAO :=
  mkConfigDAO (db dao) (redis dao)
              (log dao ++ [mkEntry WarnLevel msg (Some e) [("cache_key", cacheKey)]]).

(** ["config:" + namespace + ":" + key] *)
Definition cacheKey (namespace key : string) : string :=
  (("config:" +:+ namespace) +:+ ":") +:+ key.

(** [GetConfiguration] retrieves a configuration by namespace and key:
    from the cache if it answers, from the store otherwise, in which case
    the value read is put into the cache. *)
Definition GetConfiguration (now : Z) (dao : ConfigDAO) (namespace key : string)
  : option Configuration * option error * ConfigDAO :=
  let config := Models.zero in
  (* Not found in cache or Redis unavailable, query database *)
  let database (dao : ConfigDAO) :=
    let '(config, err, d) := Gorm.First_where namespace key config (db dao) in
    let dao := set_db d dao in
    match err with
    | Some e => (None, Some e, dao)
    | None =>
      (* Cache the result if Redis is available *)
      match redis dao with
      | Some r =>
        let cacheKey := cacheKey namespace key in
        let '(err, r) := Redis.Set_ now cacheKey (Value config) (5 * Minute) r in
        let dao := set_redis (Some r) dao in
        match err with
        | Some e => (Some config, None, Warn e cacheKey "Failed to cache configuration" dao)
        | None => (Some config, None, dao)
        end
      | None => (Some config, None, dao)
      end
    end in
  (* Try to get from cache first if Redis is available *)
  match redis dao with
  | Some r =>
    let cacheKey := cacheKey namespace key in
    let '(cached, err, r) := Redis.Get now cacheKey r in
    let dao := set_redis (Some r) dao in
    match err with
    | None =>
      (* Found in cache *)
      (Some (with_Key key (with_Namespace namespace (with_Value cached config))),
       None, dao)
    | Some e =>
      if bool_decide (e <> RedisNil) then
        (* Redis error but not Nil, log it and continue to database *)
        database (Warn e cacheKey "Redis get failed, falling back to database" dao)
      else database dao
    end
  | None => database dao
  end.

(** [GetSpecificConfiguration] retrieves a specific configuration by
    namespace and key; its body is that of [GetConfiguration]. *)
Definition GetSpecificConfiguration (now : Z) (dao : ConfigDAO) (namespace key : string)
  : option Configuration * option error * ConfigDAO :=
  let config := Models.zero in
  let database (dao : ConfigDAO) :=
    let '(config, err, d) := Gorm.First_where namespace key config (db dao) in
    let dao := set_db d dao in
    match err with
    | Some e => (None, Some e, dao)
    | None =>
      match redis dao with
      | Some r =>
        let cacheKey := cacheKey namespace key in
        let '(err, r) := Redis.Set_ now cacheKey (Value config) (5 * Minute) r in
        let dao := set_redis (Some r) dao in
        match err with
        | Some e => (Some config, None, Warn e cacheKey "Failed to cache configuration" dao)
        | None => (Some config, None, dao)
        end
      | None => (Some config, None, dao)
      end
    end in
  match redis dao with
  | Some r =>
    let cacheKey := cacheKey namespace key in
    let '(cached, err, r) := Redis.Get now cacheKey r in
    let dao := set_redis (Some r) dao in
    match err with
    | None =>
      (Some (with_Key key (with_Namespace namespace (with_Value cached config))),
       None, dao)
    | Some e =>
      if bool_decide (e <> RedisNil) then
        database (Warn e cacheKey "Redis get failed, falling back to database" dao)
      else database dao
    end
  | None => database dao
  end.

(** [CreateConfiguration] creates a new configuration and invalidates the
    cache entry of its key.  The first component of the result is [config]
    after the call (the store writes the identifier into it). *)
Definition CreateConfiguration (dao : ConfigDAO) (config : Configuration)
  : Configuration * option error * ConfigDAO :=
  let '(config, err, d) := Gorm.Create config (db dao) in
  let dao := set_db d dao in
  match err with
  | Some e => (config, Some e, dao)
  | None =>
    (* Invalidate cache if Redis is available *)
    match redis dao with
    | Some r =>
      let cacheKey := cacheKey (Namespace config) (Key config) in
      let '(err, r) := Redis.Del cacheKey r in
      let dao := set_redis (Some r) dao in
      match err with
      | Some e => (config, None, Warn e cacheKey "Failed to invalidate cache" dao)
      | None => (config, None, dao)
      end
    | None => (config, None, dao)
    end
  end.

(** [UpdateConfiguration] updates an existing configuration and puts its
    value into the cache. *)
Definition UpdateConfiguration (now : Z) (dao : ConfigDAO) (config : Configuration)
  : Configuration * option error * ConfigDAO :=
  let '(config, err, d) := Gorm.Save config (db dao) in
  let dao := set_db d dao in
  match err with
  | Some e => (config, Some e, dao)
  | None =>
    (* Update cache if Redis is available *)
    match redis dao with
    | Some r =>
      let cacheKey := cacheKey (Namespace config) (Key config) in
      let '(err, r) := Redis.Set_ now cacheKey (Value config) (5 * Minute) r in
      let dao := set_redis (Some r) dao in
      match err with
      | Some e => (config, None, Warn e cacheKey "Failed to update cache" dao)
      | None => (config, None, dao)
      end
    | None => (config, None, dao)
    end
  end.

(** [DeleteConfiguration] soft-deletes the configuration with the given
    identifier and invalidates the cache entry of its key. *)
Definition DeleteConfiguration (now : Z) (dao : ConfigDAO) (id : N)
  : option error * ConfigDAO :=
  let config := Models.zero in
  let '(config, err, d) := Gorm.First_id id config (db dao) in
  let dao := set_db d dao in
  match err with
  | Some e => (Some e, dao)
  | None =>
    let '(err, d) := Gorm.Delete now config (db dao) in
    let dao := set_db d dao in
    match err with
    | Some e => (Some e, dao)
    | None =>
      (* Invalidate cache if Redis is available *)
      match redis dao with
      | Some r =>
        let cacheKey := cacheKey (Namespace config) (Key config) in
        let '(err, r) := Redis.Del cacheKey r in
        let dao := set_redis (Some r) dao in
        match err with
        | Some e => (None, Warn e cacheKey "Failed to invalidate cache" dao)
        | None => (None, dao)
        end
      | None => (None, dao)
      end
    end
  end.

(** [GetConfigurations] retrieves a page of configurations, the newest
    first, with the number of all configurations that match.  [LIKE] is
    the pattern match of the database, applied to a pattern and a text. *)
Definition GetConfigurations (LIKE : string -> string -> bool)
    (dao : ConfigDAO) (page pageSize : Z) (search : string)
  : list Configuration * Z * option error * ConfigDAO :=
  let query : Configuration -> bool :=
      if bool_decide (search <> "") then
        fun c => LIKE (("%" +:+ search) +:+ "%") (Namespace c)
                 || LIKE (("%" +:+ search) +:+ "%") (Key c)
                 || LIKE (("%" +:+ search) +:+ "%") (Description c)
      else fun _ => true in
  (* Get total count *)
  let '(total, err, d) := Gorm.Count query (db dao) in
  let dao := set_db d dao in
  match err with
  | Some e => ([], 0%Z, Some e, dao)
  | None =>
    (* Get paginated data *)
    let offset := int64 (int64 (page - 1) * pageSize) in
    let '(configs, err, d) := Gorm.Find_page query offset pageSize (db dao) in
    let dao := set_db d dao in
    match err with
    | Some e => ([], 0%Z, Some e, dao)
    | None => (configs, total, None, dao)
    end
  end.

(** [GetNamespaceConfigurations] retrieves all configurations of a
    namespace, ordered by key. *)
Definition GetNamespaceConfigurations (dao : ConfigDAO) (namespace : string)
  : list Configuration * option error * ConfigDAO :=
  let '(configs, err, d) :=
      Gorm.Find_by_key (fun c => bool_decide (Namespace c = namespace)) (db dao) in
  let dao := set_db d dao in
  match err with
  | Some e => ([], Some e, dao)
  | None => (configs, None, dao)
  end.

(** [GetConfigurationByID] retrieves a configuration by identifier into
    [config]; the first component of the result is [config] after the
    call. *)
Definition GetConfigurationByID (dao : ConfigDAO) (id : N) (config : Configuration)
  : Configuration * option error * ConfigDAO :=
  let '(config, err, d) := Gorm.First_into id config (db dao) in
  (config, err, set_db d dao).

End Dao.

(** ** The service *)

Module Services.

Import Dao.

(** The values of a decoded request body, [map[string]interface{}]. *)
Inductive value : Type :=
  | VString (s : string)
  | VNumber (z : Z)
  | VBool (b : bool)
  | VNull.

(** [v, ok := data[field].(string)] *)
Definition as_string (data : gmap string value) (field : string) : string * bool :=
  match data !! field with
  | Some (VString s) => (s, true)
  | _ => ("", false)
  end.

(** [ConfigService].  [InitializeApp] hands one logger to the data-access
    object and to the service, so the service writes to the log of its
    [configDAO]. *)
Record ConfigService : Type := mkConfigService {
  configDAO : ConfigDAO
}.

(** [s.log.WithError(err).WithFields(...).Error(msg)] and
    [s.log.WithFields(...).Info(msg)] *)
Definition Log (l : level) (e : option error) (fields : list (string * string))
    (msg : string) (dao : ConfigDAO) : ConfigDAO :=
  mkConfigDAO (db dao) (redis dao) (log dao ++ [mkEntry l msg e fields]).

(** [CreateConfiguration] validates the request, checks for a duplicate
    and creates the configuration.  [now] is the reading of [time.Now()]. *)
Definition CreateConfiguration (now : Z) (s : ConfigService) (data : gmap string value)
  : option Configuration * option error * ConfigService :=
  (* Validate and extract configuration data *)
  let '(namespace, ok) := as_string data "namespace" in
  if negb ok || bool_decide (namespace = "") then
    (None, Some (ValidationError "namespace" "namespace is required and must be a string"), s)
  else
  let '(key, ok) := as_string data "key" in
  if negb ok || bool_decide (key = "") then
    (None, Some (ValidationError "key" "key is required and must be a string"), s)
  else
  let '(value, _) := as_string data "value" in
  let '(description, _) := as_string data "description" in
  let '(namespace, _) := as_string data "namespace" in
  let '(key, _) := as_string data "key" in
  (* Check for duplicates *)
  let '(existing, err, dao) := GetSpecificConfiguration now (configDAO s) namespace key in
  if bool_decide (err = None) && bool_decide (existing <> None) then
    (None, Some (ConflictError "configuration already exists"), mkConfigService dao)
  else
  (* Create configuration *)
  let config := mkConfiguration 0 namespace key value description now now None in
  let '(config, err, dao) := Dao.CreateConfiguration dao config in
  match err with
  | Some e =>
    (None, Some e,
     mkConfigService
       (Log ErrorLevel (Some e) [("namespace", namespace); ("key", key)]
            "Failed to create configuration" dao))
  | None =>
    (Some config, None,
     mkConfigService
       (Log InfoLevel None [("namespace", namespace); ("key", key)]
            "Configuration created successfully" dao))
  end.

(** The body of a list response: the page of configurations and the
    entries of its ["pagination"] object. *)
Record Listing : Type := mkListing {
  data : list Configuration;
  page : Z;
  page_size : Z;
  total : Z;
  total_pages : Z
}.

(** [GetConfiguration] validates its parameters and retrieves a
    configuration by namespace and key. *)
Definition GetConfiguration (now : Z) (s : ConfigService) (namespace key : string)
  : option Configuration * option error * ConfigService :=
  (* Validate input parameters *)
  if bool_decide (namespace = "") then
    (None, Some (ValidationError "namespace" "namespace is required"), s)
  else if bool_decide (key = "") then
    (None, Some (ValidationError "key" "key is required"), s)
  else
  (* Get configuration *)
  let '(config, err, dao) := Dao.GetConfiguration now (configDAO s) namespace key in
  match err with
  | Some e =>
    (None, Some e,
     mkConfigService
       (Log ErrorLevel (Some e) [("namespace", namespace); ("key", key)]
            "Failed to get configuration" dao))
  | None =>
    (config, None,
     mkConfigService
       (Log InfoLevel None [("namespace", namespace); ("key", key)]
            "Configuration retrieved successfully" dao))
  end.

(** [GetConfigurations] retrieves a list of configurations with pagination
    and search. *)
Definition GetConfigurations (LIKE : string -> string -> bool)
    (s : ConfigService) (page pageSize : Z) (search : string)
  : option Listing * option error * ConfigService :=
  (* Validate pagination parameters *)
  let page := if bool_decide (page < 1)%Z then 1%Z else page in
  let pageSize :=
      if bool_decide (pageSize < 1)%Z || bool_decide (pageSize > 100)%Z
      then 20%Z else pageSize in
  (* Get configurations *)
  let '(configs, total, err, dao) :=
      Dao.GetConfigurations LIKE (configDAO s) page pageSize search in
  match err with
  | Some e =>
    (None, Some e,
     mkConfigService
       (Log ErrorLevel (Some e)
            [("page", pretty page); ("page_size", pretty pageSize); ("search", search)]
            "Failed to get configurations" dao))
  | None =>
    (* Prepare response *)
    let response :=
        mkListing configs page pageSize total
                  (Z.quot (int64 (int64 (total + pageSize) - 1)) pageSize) in
    (Some response, None,
     mkConfigService
       (Log InfoLevel None
            [("page", pretty page); ("page_size", pretty pageSize);
             ("search", search); ("total", pretty total)]
            "Configurations retrieved successfully" dao))
  end.

(** [GetNamespaceConfigurations] retrieves all configurations for a
    specific namespace. *)
Definition GetNamespaceConfigurations (s : ConfigService) (namespace : string)
  : list Configuration * option error * ConfigService :=
  (* Validate namespace parameter *)
  if bool_decide (namespace = "") then
    ([], Some (ValidationError "namespace" "namespace is required"), s)
  else
  let '(configs, err, dao) := Dao.GetNamespaceConfigurations (configDAO s) namespace in
  match err with
  | Some e =>
    ([], Some e,
     mkConfigService
       (Log ErrorLevel (Some e) [("namespace", namespace)]
            "Failed to get namespace configurations" dao))
  | None =>
    (configs, None,
     mkConfigService
       (Log InfoLevel None [("namespace", namespace)]
            "Namespace configurations retrieved successfully" dao))
  end.

(** [GetSpecificConfiguration] validates its parameters and retrieves a
    specific configuration by namespace and key. *)
Definition GetSpecificConfiguration (now : Z) (s : ConfigService) (namespace key : string)
  : option Configuration * option error * ConfigService :=
  if bool_decide (namespace = "") then
    (None, Some (ValidationError "namespace" "namespace is required"), s)
  else if bool_decide (key = "") then
    (None, Some (ValidationError "key" "key is required"), s)
  else
  let '(config, err, dao) := Dao.GetSpecificConfiguration now (configDAO s) namespace key in
  match err with
  | Some e =>
    (None, Some e,
     mkConfigService
       (Log ErrorLevel (Some e) [("namespace", namespace); ("key", key)]
            "Failed to get specific configuration" dao))
  | None =>
    (config, None,
     mkConfigService
       (Log InfoLevel None [("namespace", namespace); ("key", key)]
            "Specific configuration retrieved successfully" dao))
  end.

(** [if v, ok := data[field].(string); ok { config.Field = v }] *)
Definition update_field (data : gmap string value) (field : string)
    (set : string -> Configuration -> Configuration) (config : Configuration)
  : Configuration :=
  match as_string data field with
  | (v, true) => set v config
  | (_, false) => config
  end.

(** [UpdateConfiguration] looks the configuration up by identifier,
    overwrites the fields the request carries and saves the record. *)
Definition UpdateConfiguration (now : Z) (s : ConfigService) (id : N)
    (data : gmap string value)
  : option Configuration * option error * ConfigService :=
  (* Get existing configuration *)
  let config := Models.zero in
  let '(config, err, dao) := Dao.GetConfigurationByID (configDAO s) id config in
  match err with
  | Some e =>
    if bool_decide (e = ErrRecordNotFound) then
      (None, Some (NotFoundError "configuration not found"), mkConfigService dao)
    else (None, Some e, mkConfigService dao)
  | None =>
    (* Update fields *)
    let config := update_field data "value" with_Value config in
    let config := update_field data "description" with_Description config in
    let config := update_field data "namespace" with_Namespace config in
    let config := update_field data "key" with_Key config in
    let config := with_UpdatedAt now config in
    (* Update configuration *)
    let '(config, err, dao) := Dao.UpdateConfiguration now dao config in
    match err with
    | Some e =>
      (None, Some e,
       mkConfigService
         (Log ErrorLevel (Some e) [("id", pretty id)]
              "Failed to update configuration" dao))
    | None =>
      (Some config, None,
       mkConfigService
         (Log InfoLevel None [("id", pretty id)]
              "Configuration updated successfully" dao))
    end
  end.

(** [DeleteConfiguration] checks that the configuration exists and
    deletes it. *)
Definition DeleteConfiguration (now : Z) (s : ConfigService) (id : N)
  : option error * ConfigService :=
  (* Check if configuration exists *)
  let config := Models.zero in
  let '(_, err, dao) := Dao.GetConfigurationByID (configDAO s) id config in
  match err with
  | Some e =>
    if bool_decide (e = ErrRecordNotFound) then
      (Some (NotFoundError "configuration not found"), mkConfigService dao)
    else (Some e, mkConfigService dao)
  | None =>
    (* Delete configuration *)
    let '(err, dao) := Dao.DeleteConfiguration now dao id in
    match err with
    | Some e =>
      (Some e,
       mkConfigService
         (Log ErrorLevel (Some e) [("id", pretty id)]
              "Failed to delete configuration" dao))
    | None =>
      (None,
       mkConfigService
         (Log InfoLevel None [("id", pretty id)]
              "Configuration deleted successfully" dao))
    end
  end.

End Services.

(** ** The controller *)

Module Controllers.

Import Dao.

(** The values of the fields of a JSON response body. *)
Inductive payload : Type :=
  | PString (s : string)
  | PConfiguration (c : option Configuration)
  | PConfigurations (l : list Configuration).

(** What [c.JSON(status, gin.H{...})] writes. *)
Record Response : Type := mkResponse {
  Status : Z;
  Body : gmap string payload
}.

Definition StatusOK : Z := 200.
Definition StatusBadRequest : Z := 400.
Definition StatusNotFound : Z := 404.
Definition StatusConflict : Z := 409.
Definition StatusInternalServerError : Z := 500.

(** [ConfigController]; its logger is the one of the service. *)
Record ConfigController : Type := mkConfigController {
  configService : Services.ConfigService
}.

(** [handleError] logs the error and answers by its type. *)
Definition handleError (cc : ConfigController) (err : error)
  : Response * ConfigController :=
  (* Log error *)
  let cc :=
      mkConfigController
        (Services.mkConfigService
           (Services.Log ErrorLevel (Some err) [] "Request processing failed"
                         (Services.configDAO (configService cc)))) in
  (* Handle different error types *)
  match err with
  | ValidationError field message =>
    (mkResponse StatusBadRequest
                {[ "code" := PString "validation.error";
                   "message" := PString message;
                   "field" := PString field ]}, cc)
  | ConflictError message =>
    (mkResponse StatusConflict
                {[ "code" := PString "conflict.error";
                   "message" := PString message ]}, cc)
  | NotFoundError message =>
    (mkResponse StatusNotFound
                {[ "code" := PString "notfound.error";
                   "message" := PString message ]}, cc)
  | _ =>
    (mkResponse StatusInternalServerError
                {[ "code" := PString "internal.error";
                   "message" := PString "Internal server error" ]}, cc)
  end.

(** [GetNamespaceConfigurations] handles
    [GET /configurations/{namespace}]. *)
Definition GetNamespaceConfigurations (cc : ConfigController) (namespace : string)
  : Response * ConfigController :=
  let '(configs, err, s) :=
      Services.GetNamespaceConfigurations (configService cc) namespace in
  let cc := mkConfigController s in
  match err with
  | Some e => handleError cc e
  | None =>
    (mkResponse StatusOK
                {[ "code" := PString "success";
                   "message" := PString "Namespace configurations retrieved successfully";
                   "data" := PConfigurations configs ]}, cc)
  end.

(** [GetSpecificConfiguration] handles
    [GET /configurations/{namespace}/{key}]. *)
Definition GetSpecificConfiguration (now : Z) (cc : ConfigController)
    (namespace key : string)
  : Response * ConfigController :=
  let '(config, err, s) :=
      Services.GetSpecificConfiguration now (configService cc) namespace key in
  let cc := mkConfigController s in
  match err with
  | Some e => handleError cc e
  | None =>
    (mkResponse StatusOK
                {[ "code" := PString "success";
                   "message" := PString "Specific configuration retrieved successfully";
                   "data" := PConfiguration config ]}, cc)
  end.

End Controllers.

(** * Notions used in the statements *)

Import Dao.

(** The answer of the store alone: what [GetConfiguration] computes once
    the cache has not answered, before it repopulates the cache. *)
Definition store_answer (dao : ConfigDAO) (namespace key : string)
  : option Configuration * option error :=
  let '(config, err, _) := Gorm.First_where namespace key Models.zero (db dao) in
  match err with
  | Some e => (None, Some e)
  | None => (Some config, None)
  end.

(** The second half of [GetConfiguration]: the query on the store and the
    repopulation of the cache. *)
Definition read_store (now : Z) (dao : ConfigDAO) (namespace key : string)
  : option Configuration * option error * ConfigDAO :=
  let '(config, err, d) := Gorm.First_where namespace key Models.zero (db dao) in
  let dao := set_db d dao in
  match err with
  | Some e => (None, Some e, dao)
  | None =>
    match redis dao with
    | Some r =>
      let cacheKey := cacheKey namespace key in
      let '(err, r) := Redis.Set_ now cacheKey (Value config) (5 * Minute) r in
      let dao := set_redis (Some r) dao in
      match err with
      | Some e => (Some config, None, Warn e cacheKey "Failed to cache configuration" dao)
      | None => (Some config, None, dao)
      end
    | None => (Some config, None, dao)
    end
  end.

(** The warning of a failed cache get; the miss sentinel is not logged. *)
Definition warn_get (e : error) (cacheKey : string) (dao : ConfigDAO) : ConfigDAO :=
  if bool_decide (e <> RedisNil)
  then Warn e cacheKey "Redis get failed, falling back to database" dao
  else dao.

(** The outcome of the first and of the second coming call of a script. *)
Definition first_outcome (s : script) : option string := fst (next_outcome s).
Definition second_outcome (s : script) : option string :=
  fst (next_outcome (snd (next_outcome s))).

(** The state after a cache call whose failure is logged and ignored:
    [after] is the cache when the call goes through. *)
Definition best_effort (r : Redis.Client) (after : gmap string (string * Z))
    (cacheKey msg : string) (dao : ConfigDAO) : ConfigDAO :=
  let rest := snd (next_outcome (Redis.redis_outcomes r)) in
  match first_outcome (Redis.redis_outcomes r) with
  | Some m =>
    Warn (RedisError m) cacheKey msg
         (set_redis (Some (Redis.mkClient (Redis.entries r) rest)) dao)
  | None => set_redis (Some (Redis.mkClient after rest)) dao
  end.

(** The line a failed cache call leaves in the log. *)
Definition cache_warning (msg : string) (e : error) (cacheKey : string) : Entry :=
  mkEntry WarnLevel msg (Some e) [("cache_key", cacheKey)].

(** A state with a cache holding one entry, and one without cache. *)
Definition one_entry (key value : string) (expiry : Z) : Redis.Client :=
  Redis.mkClient {[ key := (value, expiry) ]} [].

Definition c30 : Configuration :=
  mkConfiguration 0 "build" "timeout" "30" "" 0 0 None.

Definition row30 : Configuration :=
  mkConfiguration 1 "build" "timeout" "30" "" 0 0 None.

(** A cache that holds ["30"] for ("build", "timeout") until instant
    [1000], in front of an empty table. *)
Definition dao_cached : ConfigDAO :=
  mkConfigDAO (Gorm.mkDB [] []) (Some (one_entry "config:build:timeout" "30" 1000)) [].

(** An empty cache in front of a table with one row; the first call to the
    cache fails when [outcomes] says so. *)
Definition dao_stored (outcomes : script) : ConfigDAO :=
  mkConfigDAO (Gorm.mkDB [row30] []) (Some (Redis.mkClient ∅ outcomes)) [].

(** A table with one row for ("a", "b:c") behind an empty cache. *)
Definition row_abc : Configuration :=
  mkConfiguration 1 "a" "b:c" "v" "" 0 0 None.

Definition dao_abc : ConfigDAO :=
  mkConfigDAO (Gorm.mkDB [row_abc] []) (Some (Redis.mkClient ∅ [])) [].

(** The namespace, key, value and description of a request body that
    passes the validation of the service; [None] when it does not. *)
Definition request (data : gmap string Services.value)
  : option (string * string * string * string) :=
  match data !! "namespace", data !! "key" with
  | Some (Services.VString namespace), Some (Services.VString key) =>
    if bool_decide (namespace = "") || bool_decide (key = "") then None
    else Some (namespace, key,
               fst (Services.as_string data "value"),
               fst (Services.as_string data "description"))
  | _, _ => None
  end.

(** A request for ("build", "timeout") with value ["60"]. *)
Definition body60 : gmap string Services.value :=
  {[ "namespace" := Services.VString "build";
     "key" := Services.VString "timeout";
     "value" := Services.VString "60" ]}.

(** ** Direct access to the store *)

(** The four operations without any caching: the read is the query, the
    writes are the insert, the full-record write, and the lookup by
    identifier followed by the soft delete. *)
Definition direct_fetch (namespace key : string) (d : Gorm.DB)
  : option Configuration * option error * Gorm.DB :=
  let '(config, err, d) := Gorm.First_where namespace key Models.zero d in
  match err with
  | Some e => (None, Some e, d)
  | None => (Some config, None, d)
  end.

Definition direct_create (config : Configuration) (d : Gorm.DB)
  : Configuration * option error * Gorm.DB :=
  Gorm.Create config d.

Definition direct_update (config : Configuration) (d : Gorm.DB)
  : Configuration * option error * Gorm.DB :=
  Gorm.Save config d.

Definition direct_delete (now : Z) (id : N) (d : Gorm.DB) : option error * Gorm.DB :=
  let '(config, err, d) := Gorm.First_id id Models.zero d in
  match err with
  | Some e => (Some e, d)
  | None => Gorm.Delete now config d
  end.

(** Two runs of an operation have the same outcome and the same effect on
    the store. *)
Definition same_outcome (err1 : option error) (dao1 : ConfigDAO)
    (err2 : option error) (dao2 : ConfigDAO) : Prop :=
  err1 = err2 /\ db dao1 = db dao2.

(** An empty table behind an empty cache. *)
Definition dao_empty : ConfigDAO :=
  mkConfigDAO (Gorm.mkDB [] []) (Some (Redis.mkClient ∅ [])) [].

(** The state after ("build", "timeout") has been created, fetched, and
    then renamed to ("build", "retries") by an update, with every call to
    the cache and to the store going through. *)
Definition after_rename : ConfigDAO :=
  let '(_, _, dao) := CreateConfiguration dao_empty c30 in
  let '(_, _, dao) := GetConfiguration 100 dao "build" "timeout" in
  let '(_, _, dao) :=
      UpdateConfiguration 200 dao (mkConfiguration 1 "build" "retries" "30" "" 0 0 None) in
  dao.

(** A cache that holds the value ["10"] for ("build", "timeout") until
    instant [1000], in front of an empty table; [outcomes] scripts the
    coming calls to the cache. *)
Definition dao_stale (outcomes : script) : ConfigDAO :=
  mkConfigDAO (Gorm.mkDB [] [])
              (Some (Redis.mkClient {[ "config:build:timeout" := ("10", 1000%Z) ]} outcomes))
              [].

(** ** Runs of fetches *)

(** The results of fetching the pair at each of the given instants, one
    fetch after the other. *)
Fixpoint fetches (times : list Z) (dao : ConfigDAO) (namespace key : string)
  : list (option Configuration * option error) :=
  match times with
  | [] => []
  | t :: times =>
    let '(res, err, dao') := GetConfiguration t dao namespace key in
    (res, err) :: fetches times dao' namespace key
  end.

(** A result that carries the value [v], or else a failure of the store. *)
Definition fresh (v : string) (result : option Configuration * option error) : Prop :=
  match snd result with
  | None => exists c, fst result = Some c /\ Value c = v
  | Some e => fst result = None /\ exists msg, e = DBError msg
  end.

(** What has to hold of a state for every fetch of the pair to carry [v]:
    the cache holds no other value under the key of the pair, and the
    store answers the pair with a row of value [v]. *)
Definition settled (v namespace key : string) (dao : ConfigDAO) : Prop :=
  match redis dao with
  | Some r =>
    forall val expiry,
      Redis.entries r !! cacheKey namespace key = Some (val, expiry) -> val = v
  | None => True
  end /\
  exists row, Gorm.lookup_key namespace key (Gorm.table (db dao)) = Some row /\
              Value row = v.

(** The state after ("build", "timeout") has been created with value
    ["30"] and fetched at instant [100], which puts ["30"] into the cache;
    [outcomes] scripts the calls to the cache. *)
Definition before_update (outcomes : script) : ConfigDAO :=
  let dao := mkConfigDAO (Gorm.mkDB [] []) (Some (Redis.mkClient ∅ outcomes)) [] in
  let '(_, _, dao) := CreateConfiguration dao c30 in
  let '(_, _, dao) := GetConfiguration 100 dao "build" "timeout" in
  dao.

Definition row60 : Configuration :=
  mkConfiguration 1 "build" "timeout" "60" "" 0 0 None.

(** ** Notions used in the further statements *)

(** The outcome of the third coming call of a script. *)
Definition third_outcome (s : script) : option string :=
  fst (next_outcome (snd (next_outcome (snd (next_outcome s))))).

(** The string a request carries under a field, or [old] when it carries
    none or something that is not a string. *)
Definition carried (data : gmap string Services.value) (field old : string) : string :=
  match data !! field with
  | Some (Services.VString s) => s
  | _ => old
  end.

(** The record an update request turns a stored row into at instant
    [now]. *)
Definition merged (now : Z) (data : gmap string Services.value) (row : Configuration)
  : Configuration :=
  mkConfiguration (ID row)
                  (carried data "namespace" (Namespace row))
                  (carried data "key" (Key row))
                  (carried data "value" (Value row))
                  (carried data "description" (Description row))
                  (CreatedAt row) now (DeletedAt row).

(** A request that renames a configuration to ("build", "retries"). *)
Definition body_rename : gmap string Services.value :=
  {[ "key" := Services.VString "retries" ]}.

(** From [dao] to [dao'] the cache client is neither configured nor
    removed, and every cache entry under a key other than [k0] is kept. *)
Definition others_kept (dao : ConfigDAO) (k0 : string) (dao' : ConfigDAO) : Prop :=
  match redis dao, redis dao' with
  | None, None => True
  | Some r, Some r' =>
    forall k, k <> k0 -> Redis.entries r' !! k = Redis.entries r !! k
  | _, _ => False
  end.

(** The condition of the search of [GetConfigurations]: every row when the
    search term is empty, else the rows whose namespace, key or
    description matches the term between two wildcards. *)
Definition matches (LIKE : string -> string -> bool) (search : string)
    (c : Configuration) : bool :=
  if bool_decide (search <> "") then
    LIKE (("%" +:+ search) +:+ "%") (Namespace c)
    || LIKE (("%" +:+ search) +:+ "%") (Key c)
    || LIKE (("%" +:+ search) +:+ "%") (Description c)
  else true.

(** The whole listing a search selects, the newest first. *)
Definition listing (LIKE : string -> string -> bool) (search : string)
    (t : list Configuration) : list Configuration :=
  merge_sort Gorm.by_created_at_desc (Gorm.selected (matches LIKE search) t).

(** A pattern match that accepts a text only when the search term is the
    whole text, for examples. *)
Definition whole_text (pattern text : string) : bool :=
  bool_decide (pattern = ("%" +:+ text) +:+ "%").

(** Three rows, of which the second is soft-deleted. *)
Definition three_rows : list Configuration :=
  [ mkConfiguration 1 "build" "timeout" "30" "" 10 10 None;
    mkConfiguration 2 "build" "retries" "3" "" 20 20 (Some 25%Z);
    mkConfiguration 3 "build" "jobs" "8" "" 30 30 None ].

(** A service without cache in front of the three rows. *)
Definition service_three : Services.ConfigService :=
  Services.mkConfigService (mkConfigDAO (Gorm.mkDB three_rows []) None []).

(** A store without cache after ("build", "timeout") and
    ("build", "retries") have been created, and the record that renames
    the second onto the pair of the first with a new value. *)
Definition two_pairs : ConfigDAO :=
  let dao := mkConfigDAO (Gorm.mkDB [] []) None [] in
  let '(_, _, dao) := CreateConfiguration dao c30 in
  let '(_, _, dao) :=
      CreateConfiguration dao (mkConfiguration 0 "build" "retries" "40" "" 0 0 None) in
  dao.

Definition row_renamed : Configuration :=
  mkConfiguration 2 "build" "timeout" "60" "" 0 0 None.
(** * Properties *)

(** ** Strings and scripts *)

Lemma append_assoc (a b c : string) : (a +:+ b) +:+ c = a +:+ (b +:+ c).
Proof.
  induction a as [|x a IH]; [reflexivity|].
  change (String x ((a +:+ b) +:+ c) = String x (a +:+ (b +:+ c))).
  now rewrite IH.
Qed.

Lemma length_append (a b : string) :
  String.length (a +:+ b) = String.length a + String.length b.
Proof.
  induction a as [|x a IH]; [reflexivity|].
  change (S (String.length (a +:+ b)) = S (String.length a + String.length b)).
  now rewrite IH.
Qed.

Lemma append_grows (a b : string) : a <> a +:+ (":" +:+ b).
Proof.
  intros H. apply (f_equal String.length) in H.
  rewrite length_append in H.
  change (String.length (":" +:+ b)) with (S (String.length b)) in H. lia.
Qed.

(** The cache key is the prefix, the namespace, the delimiter, the key. *)
Lemma cacheKey_spelled (namespace key : string) :
  cacheKey namespace key = "config:" +:+ (namespace +:+ (":" +:+ key)).
Proof. unfold cacheKey. now rewrite !append_assoc. Qed.

Lemma cacheKey_shift (ns k1 k2 : string) :
  cacheKey ns (k1 +:+ (":" +:+ k2)) = cacheKey (ns +:+ (":" +:+ k1)) k2.
Proof. rewrite !cacheKey_spelled. now rewrite !append_assoc. Qed.

(** ** The read path, case by case *)

Lemma store_answer_cases (dao : ConfigDAO) (namespace key : string) :
  store_answer dao namespace key =
  match fst (next_outcome (Gorm.db_outcomes (db dao))) with
  | Some msg => (None, Some (DBError msg))
  | None =>
    match Gorm.lookup_key namespace key (Gorm.table (db dao)) with
    | Some row => (Some row, None)
    | None => (None, Some ErrRecordNotFound)
    end
  end.
Proof.
  unfold store_answer, Gorm.First_where, Gorm.First.
  destruct (next_outcome _) as [[msg|] s]; simpl; [reflexivity|].
  destruct (Gorm.lookup_key _ _ _); reflexivity.
Qed.

(** A cache hit is answered from the cache alone. *)
Lemma GetConfiguration_hit now dao r namespace key cached r' :
  redis dao = Some r ->
  Redis.Get now (cacheKey namespace key) r = (cached, None, r') ->
  GetConfiguration now dao namespace key =
  (Some (mkConfiguration 0 namespace key cached "" 0 0 None), None,
   set_redis (Some r') dao).
Proof.
  intros Hr Hg. unfold GetConfiguration. rewrite Hr, Hg. reflexivity.
Qed.

Lemma GetSpecificConfiguration_eq now dao namespace key :
  GetSpecificConfiguration now dao namespace key =
  GetConfiguration now dao namespace key.
Proof. reflexivity. Qed.

(** The shape of [Redis.Get]: it answers with a value exactly when the
    call goes through and the server holds a live entry. *)
Lemma Redis_Get_hit now key r cached r' :
  Redis.Get now key r = (cached, None, r') <->
  fst (next_outcome (Redis.redis_outcomes r)) = None /\
  Redis.held now key (Redis.entries r) = Some cached /\
  r' = Redis.mkClient (Redis.entries r) (snd (next_outcome (Redis.redis_outcomes r))).
Proof.
  unfold Redis.Get. destruct (next_outcome _) as [[msg|] s]; simpl.
  - split; [intros H; discriminate | intros (H & _); discriminate].
  - destruct (Redis.held _ _ _) as [v|].
    + split; [intros H; injection H as <- <-; auto | intros (_ & H & ->); now injection H as <-].
    + split; [intros H; discriminate | intros (_ & H & _); discriminate].
Qed.

(** When it answers with an error, the error is the miss sentinel exactly
    when the call went through and the server holds no live entry. *)
Lemma Redis_Get_miss now key r cached e r' :
  Redis.Get now key r = (cached, Some e, r') ->
  r' = Redis.mkClient (Redis.entries r) (snd (next_outcome (Redis.redis_outcomes r))) /\
  (e = RedisNil /\ fst (next_outcome (Redis.redis_outcomes r)) = None /\
   Redis.held now key (Redis.entries r) = None
   \/ exists msg, e = RedisError msg /\
                  fst (next_outcome (Redis.redis_outcomes r)) = Some msg).
Proof.
  unfold Redis.Get. destruct (next_outcome _) as [[msg|] s]; simpl.
  - intros H; injection H as _ <- <-. split; [reflexivity | right; eauto].
  - destruct (Redis.held _ _ _) as [v|]; [discriminate|].
    intros H; injection H as _ <- <-. split; [reflexivity | left; auto].
Qed.

Lemma GetConfiguration_nil now dao namespace key :
  redis dao = None ->
  GetConfiguration now dao namespace key = read_store now dao namespace key.
Proof. intros Hr. unfold GetConfiguration. rewrite Hr. reflexivity. Qed.

Lemma GetConfiguration_fall_through now dao r namespace key cached e r' :
  redis dao = Some r ->
  Redis.Get now (cacheKey namespace key) r = (cached, Some e, r') ->
  GetConfiguration now dao namespace key =
  read_store now (warn_get e (cacheKey namespace key) (set_redis (Some r') dao))
             namespace key.
Proof.
  intros Hr Hg. unfold GetConfiguration, warn_get. rewrite Hr, Hg.
  destruct (bool_decide (e <> RedisNil)); reflexivity.
Qed.

(** [read_store] answers what the store answers, leaves the table alone,
    and touches the cache only to put the value read under the key. *)
Lemma read_store_answer now dao namespace key :
  fst (read_store now dao namespace key) = store_answer dao namespace key.
Proof.
  unfold read_store, store_answer.
  destruct (Gorm.First_where _ _ _ _) as [[config [e|]] d]; simpl; [reflexivity|].
  destruct (redis dao) as [r|]; [|reflexivity].
  destruct (Redis.Set_ _ _ _ _ _) as [[e|] r']; reflexivity.
Qed.

Lemma First_table found dest d :
  Gorm.table (snd (Gorm.First found dest d)) = Gorm.table d /\
  Gorm.db_outcomes (snd (Gorm.First found dest d)) = snd (next_outcome (Gorm.db_outcomes d)).
Proof.
  unfold Gorm.First. destruct (next_outcome _) as [[msg|] s]; simpl; [auto|].
  destruct found; auto.
Qed.

Lemma read_store_db now dao namespace key :
  db (snd (read_store now dao namespace key)) =
  snd (Gorm.First_where namespace key Models.zero (db dao)).
Proof.
  unfold read_store.
  destruct (Gorm.First_where _ _ _ _) as [[config [e|]] d]; simpl; [reflexivity|].
  destruct (redis dao) as [r|]; [|reflexivity].
  destruct (Redis.Set_ _ _ _ _ _) as [[e|] r']; reflexivity.
Qed.

Lemma read_store_nil now dao namespace key :
  redis dao = None ->
  redis (snd (read_store now dao namespace key)) = None /\
  log (snd (read_store now dao namespace key)) = log dao.
Proof.
  intros Hr. unfold read_store.
  destruct (Gorm.First_where _ _ _ _) as [[config [e|]] d]; simpl; [auto|].
  rewrite Hr. auto.
Qed.

(** The cache after [read_store], by the answer and the outcome of the
    set. *)
Lemma read_store_cache now dao r namespace key :
  redis dao = Some r ->
  exists r', redis (snd (read_store now dao namespace key)) = Some r' /\
  match fst (fst (read_store now dao namespace key)) with
  | None => r' = r /\ log (snd (read_store now dao namespace key)) = log dao
  | Some config =>
    Redis.redis_outcomes r' = snd (next_outcome (Redis.redis_outcomes r)) /\
    match fst (next_outcome (Redis.redis_outcomes r)) with
    | None =>
      Redis.entries r' =
        <[cacheKey namespace key := (Value config, (now + 5 * Minute)%Z)]> (Redis.entries r) /\
      log (snd (read_store now dao namespace key)) = log dao
    | Some msg =>
      Redis.entries r' = Redis.entries r /\
      log (snd (read_store now dao namespace key)) =
        log dao ++ [mkEntry WarnLevel "Failed to cache configuration"
                            (Some (RedisError msg))
                            [("cache_key", cacheKey namespace key)]]
    end
  end.
Proof.
  intros Hr. unfold read_store.
  destruct (Gorm.First_where _ _ _ _) as [[config [e|]] d]; simpl.
  - exists r. auto.
  - rewrite Hr. unfold Redis.Set_.
    destruct (next_outcome (Redis.redis_outcomes r)) as [[msg|] s]; simpl;
      eexists; split; try reflexivity; simpl; auto.
Qed.

(** ** Cache hits *)

(** C6. On a cache hit, [GetConfiguration] and [GetSpecificConfiguration]
    return a record made of the cached string as [Value] and of the
    supplied namespace and key; identifier, description and timestamps have
    their zero values.  The store is not consulted and the entries of the
    cache, which hold nothing but the raw value and its expiry, stay as
    they are. *)
Theorem cache_hit_synthesizes_record now dao r namespace key cached r' :
  redis dao = Some r ->
  Redis.Get now (cacheKey namespace key) r = (cached, None, r') ->
  let served := mkConfiguration 0 namespace key cached "" 0 0 None in
  GetConfiguration now dao namespace key = (Some served, None, set_redis (Some r') dao) /\
  GetSpecificConfiguration now dao namespace key = (Some served, None, set_redis (Some r') dao) /\
  Redis.entries r' = Redis.entries r /\
  db (set_redis (Some r') dao) = db dao.
Proof.
  intros Hr Hg served.
  change (GetSpecificConfiguration now dao namespace key)
    with (GetConfiguration now dao namespace key).
  rewrite (GetConfiguration_hit now dao r namespace key cached r' Hr Hg).
  apply Redis_Get_hit in Hg as (_ & _ & ->).
  repeat split; reflexivity.
Qed.

Lemma cache_hit_synthesizes_record_witness :
  GetConfiguration 0 dao_cached "build" "timeout" =
    (Some (mkConfiguration 0 "build" "timeout" "30" "" 0 0 None), None, dao_cached) /\
  GetSpecificConfiguration 0 dao_cached "build" "timeout" =
    (Some (mkConfiguration 0 "build" "timeout" "30" "" 0 0 None), None, dao_cached).
Proof.
  pose proof (cache_hit_synthesizes_record 0 dao_cached
                (one_entry "config:build:timeout" "30" 1000)
                "build" "timeout" "30"
                (one_entry "config:build:timeout" "30" 1000)
                eq_refl eq_refl) as (H1 & H2 & _).
  split; [exact H1 | exact H2].
Defined.

(** ** Cache misses and cache failures *)

(** C1. When the cache holds nothing under the composite key, the answer
    of [GetConfiguration] is the answer of the store: the row it holds for
    the pair, [ErrRecordNotFound] when it holds none, the failure of the
    store when the query fails.  After a successful read the value of the
    row is put into the cache under the composite key with an expiry five
    minutes ahead; when that call fails, a warning is logged, the cache
    stays as it was and the read still succeeds. *)
Theorem fetch_absent_reads_store_and_populates now dao r namespace key :
  redis dao = Some r ->
  Redis.held now (cacheKey namespace key) (Redis.entries r) = None ->
  let '(res, err, dao') := GetConfiguration now dao namespace key in
  Gorm.table (db dao') = Gorm.table (db dao) /\
  exists r', redis dao' = Some r' /\
  match first_outcome (Gorm.db_outcomes (db dao)),
        Gorm.lookup_key namespace key (Gorm.table (db dao)) with
  | Some msg, _ =>
    res = None /\ err = Some (DBError msg) /\ Redis.entries r' = Redis.entries r
  | None, None =>
    res = None /\ err = Some ErrRecordNotFound /\ Redis.entries r' = Redis.entries r
  | None, Some row =>
    res = Some row /\ err = None /\
    match second_outcome (Redis.redis_outcomes r) with
    | None =>
      Redis.entries r' =
        <[cacheKey namespace key := (Value row, (now + 5 * Minute)%Z)]> (Redis.entries r)
    | Some msg =>
      Redis.entries r' = Redis.entries r /\
      last (log dao') =
        Some (cache_warning "Failed to cache configuration" (RedisError msg)
                            (cacheKey namespace key))
    end
  end.
Proof.
  intros Hr Habs.
  destruct (Redis.Get now (cacheKey namespace key) r) as [[cached [e|]] r1] eqn:Hg.
  2:{ apply Redis_Get_hit in Hg as (_ & Hheld & _). congruence. }
  rewrite (GetConfiguration_fall_through now dao r namespace key cached e r1 Hr Hg).
  apply Redis_Get_miss in Hg as [-> _].
  set (dao1 := warn_get e _ _).
  assert (Hdb : db dao1 = db dao)
    by (unfold dao1, warn_get; destruct (bool_decide _); reflexivity).
  assert (Hr1 : redis dao1 =
                Some (Redis.mkClient (Redis.entries r)
                                     (snd (next_outcome (Redis.redis_outcomes r)))))
    by (unfold dao1, warn_get; destruct (bool_decide _); reflexivity).
  pose proof (read_store_answer now dao1 namespace key) as Hans.
  pose proof (read_store_db now dao1 namespace key) as Hd.
  pose proof (read_store_cache now dao1 _ namespace key Hr1) as (r' & Hr' & Hc).
  destruct (read_store now dao1 namespace key) as [[res err] dao'].
  simpl in Hans, Hd, Hr', Hc.
  rewrite store_answer_cases, Hdb in Hans. rewrite Hdb in Hd.
  split.
  { rewrite Hd. apply First_table. }
  exists r'. split; [exact Hr'|].
  unfold first_outcome, second_outcome.
  destruct (fst (next_outcome (Gorm.db_outcomes (db dao)))) as [msg|].
  { injection Hans as -> ->. destruct Hc as [-> _]. auto. }
  destruct (Gorm.lookup_key namespace key (Gorm.table (db dao))) as [row|].
  2:{ injection Hans as -> ->. destruct Hc as [-> _]. auto. }
  injection Hans as -> ->. destruct Hc as [_ Hc]. simpl in Hc.
  split; [reflexivity|]. split; [reflexivity|].
  destruct (fst (next_outcome (snd (next_outcome (Redis.redis_outcomes r))))) as [msg|].
  - destruct Hc as [He Hl]. split; [exact He|]. rewrite Hl. apply last_snoc.
  - destruct Hc as [He _]. exact He.
Qed.

Lemma fetch_absent_reads_store_and_populates_witness :
  fst (GetConfiguration 7 (dao_stored []) "build" "timeout") = (Some row30, None) /\
  exists r', redis (snd (GetConfiguration 7 (dao_stored []) "build" "timeout")) = Some r' /\
             Redis.entries r' = {[ "config:build:timeout" := ("30", 300000000007%Z) ]}.
Proof.
  pose proof (fetch_absent_reads_store_and_populates 7 (dao_stored [])
                (Redis.mkClient ∅ []) "build" "timeout" eq_refl eq_refl) as H.
  destruct (GetConfiguration 7 (dao_stored []) "build" "timeout") as [[res err] dao'].
  destruct H as (_ & r' & Hr' & H).
  vm_compute in H. destruct H as (-> & -> & H).
  split; [reflexivity|]. exists r'. split; [exact Hr' | exact H].
Defined.

(** C2. When the cache get fails with an error other than the miss
    sentinel, [GetConfiguration] logs a warning and answers what the store
    answers: the row the store holds for the pair whenever it holds one and
    the query goes through.  The error of the cache is never the error
    returned. *)
Theorem cache_error_falls_through now dao r namespace key cached e r' :
  redis dao = Some r ->
  Redis.Get now (cacheKey namespace key) r = (cached, Some e, r') ->
  e <> RedisNil ->
  let '(res, err, dao') := GetConfiguration now dao namespace key in
  (res, err) = store_answer dao namespace key /\
  (forall row,
      first_outcome (Gorm.db_outcomes (db dao)) = None ->
      Gorm.lookup_key namespace key (Gorm.table (db dao)) = Some row ->
      res = Some row /\ err = None) /\
  err <> Some e /\
  In (cache_warning "Redis get failed, falling back to database" e
                    (cacheKey namespace key)) (log dao').
Proof.
  intros Hr Hg Hne.
  rewrite (GetConfiguration_fall_through now dao r namespace key cached e r' Hr Hg).
  apply Redis_Get_miss in Hg as [-> [(-> & _) | (msg & -> & Hmsg)]]; [congruence|].
  unfold warn_get. rewrite bool_decide_eq_true_2 by exact Hne.
  set (dao1 := Warn _ _ _ _).
  pose proof (read_store_answer now dao1 namespace key) as Hans.
  pose proof (read_store_cache now dao1 _ namespace key eq_refl) as (r2 & _ & Hc).
  destruct (read_store now dao1 namespace key) as [[res err] dao'].
  simpl in Hans, Hc.
  assert (Hst : store_answer dao1 namespace key = store_answer dao namespace key)
    by reflexivity.
  rewrite Hst in Hans. split; [exact Hans|].
  rewrite store_answer_cases in Hans. unfold first_outcome.
  split; [|split].
  - intros row Ho Hrow. rewrite Ho, Hrow in Hans. now injection Hans as -> ->.
  - destruct (fst (next_outcome (Gorm.db_outcomes (db dao))));
      [|destruct (Gorm.lookup_key _ _ _)];
      injection Hans as _ ->; discriminate.
  - assert (Hl : exists l, log dao' = log dao1 ++ l).
    { destruct res as [config|].
      - destruct Hc as [_ Hc].
        destruct (fst (next_outcome (snd (next_outcome (Redis.redis_outcomes r)))));
          destruct Hc as [_ ->];
          [eexists; reflexivity | exists []; now rewrite app_nil_r].
      - destruct Hc as [_ ->]. exists []. now rewrite app_nil_r. }
    destruct Hl as [l ->]. apply in_or_app. left.
    unfold dao1, Warn. simpl. apply in_or_app. right. left. reflexivity.
Qed.

Lemma cache_error_falls_through_witness :
  fst (GetConfiguration 7 (dao_stored [Some "i/o timeout"]) "build" "timeout")
  = (Some row30, None).
Proof.
  pose proof (cache_error_falls_through 7 (dao_stored [Some "i/o timeout"])
                (Redis.mkClient ∅ [Some "i/o timeout"]) "build" "timeout"
                "" (RedisError "i/o timeout") (Redis.mkClient ∅ [])
                eq_refl eq_refl ltac:(discriminate)) as H.
  destruct (GetConfiguration 7 (dao_stored [Some "i/o timeout"]) "build" "timeout")
    as [[res err] dao'].
  destruct H as (_ & H & _).
  destruct (H row30 eq_refl eq_refl) as [-> ->]. reflexivity.
Defined.

(** ** The write path, case by case *)

Lemma Create_keeps config d :
  let config' := fst (fst (Gorm.Create config d)) in
  Namespace config' = Namespace config /\ Key config' = Key config /\
  Value config' = Value config /\ DeletedAt config' = DeletedAt config.
Proof.
  unfold Gorm.Create. destruct (next_outcome _) as [[msg|] s]; simpl; [auto|].
  destruct (bool_decide (ID config = 0%N)); simpl; [auto|].
  destruct (Gorm.has_id _ _); simpl; auto.
Qed.

Lemma Save_keeps config d :
  let config' := fst (fst (Gorm.Save config d)) in
  Namespace config' = Namespace config /\ Key config' = Key config /\
  Value config' = Value config /\ DeletedAt config' = DeletedAt config.
Proof.
  unfold Gorm.Save. destruct (bool_decide (ID config = 0%N)); [apply Create_keeps|].
  destruct (next_outcome _) as [[msg|] s]; simpl; [auto|].
  destruct (Gorm.has_id _ _); simpl; auto.
Qed.

Lemma CreateConfiguration_cases dao config :
  CreateConfiguration dao config =
  let '(config', err, d) := Gorm.Create config (db dao) in
  match err with
  | Some e => (config', Some e, set_db d dao)
  | None =>
    match redis dao with
    | None => (config', None, set_db d dao)
    | Some r =>
      let k := cacheKey (Namespace config) (Key config) in
      (config', None,
       best_effort r (delete k (Redis.entries r)) k "Failed to invalidate cache"
                   (set_db d dao))
    end
  end.
Proof.
  unfold CreateConfiguration.
  pose proof (Create_keeps config (db dao)) as (Hn & Hk & _).
  destruct (Gorm.Create config (db dao)) as [[config' [e|]] d]; [reflexivity|].
  simpl in Hn, Hk. simpl. destruct (redis dao) as [r|]; [|reflexivity].
  rewrite Hn, Hk. unfold best_effort, first_outcome, Redis.Del.
  destruct (next_outcome (Redis.redis_outcomes r)) as [[m|] s]; reflexivity.
Qed.

Lemma UpdateConfiguration_cases now dao config :
  UpdateConfiguration now dao config =
  let '(config', err, d) := Gorm.Save config (db dao) in
  match err with
  | Some e => (config', Some e, set_db d dao)
  | None =>
    match redis dao with
    | None => (config', None, set_db d dao)
    | Some r =>
      let k := cacheKey (Namespace config) (Key config) in
      (config', None,
       best_effort r (<[k := (Value config, (now + 5 * Minute)%Z)]> (Redis.entries r))
                   k "Failed to update cache" (set_db d dao))
    end
  end.
Proof.
  unfold UpdateConfiguration.
  pose proof (Save_keeps config (db dao)) as (Hn & Hk & Hv & _).
  destruct (Gorm.Save config (db dao)) as [[config' [e|]] d]; [reflexivity|].
  simpl in Hn, Hk, Hv. simpl. destruct (redis dao) as [r|]; [|reflexivity].
  rewrite Hn, Hk, Hv. unfold best_effort, first_outcome, Redis.Set_.
  destruct (next_outcome (Redis.redis_outcomes r)) as [[m|] s]; reflexivity.
Qed.

Lemma DeleteConfiguration_cases now dao id :
  DeleteConfiguration now dao id =
  let '(config, err, d) := Gorm.First_id id Models.zero (db dao) in
  match err with
  | Some e => (Some e, set_db d dao)
  | None =>
    let '(err, d) := Gorm.Delete now config d in
    match err with
    | Some e => (Some e, set_db d dao)
    | None =>
      match redis dao with
      | None => (None, set_db d dao)
      | Some r =>
        let k := cacheKey (Namespace config) (Key config) in
        (None,
         best_effort r (delete k (Redis.entries r)) k "Failed to invalidate cache"
                     (set_db d dao))
      end
    end
  end.
Proof.
  unfold DeleteConfiguration.
  destruct (Gorm.First_id id Models.zero (db dao)) as [[config [e|]] d]; [reflexivity|].
  simpl. destruct (Gorm.Delete now config d) as [[e|] d2]; [reflexivity|].
  simpl. destruct (redis dao) as [r|]; [|reflexivity].
  unfold best_effort, first_outcome, Redis.Del.
  destruct (next_outcome (Redis.redis_outcomes r)) as [[m|] s]; reflexivity.
Qed.

Lemma best_effort_db r after k msg dao :
  db (best_effort r after k msg dao) = db dao.
Proof. unfold best_effort. destruct (first_outcome _); reflexivity. Qed.

(** ** Collisions of cache keys *)

(** C10. The composite cache key is not injective.  The distinct pairs
    ("a", "b:c") and ("a:b", "c") have the same cache key, and so have
    (ns, k1 + ":" + k2) and (ns + ":" + k1, k2) for all strings.  Whenever
    two pairs share their cache key, a value the cache holds for one is
    served as a hit to a fetch of the other, and the invalidation done by
    a create for one removes the entry of the other. *)
Theorem cacheKey_not_injective :
  (("a", "b:c") <> ("a:b", "c") /\ cacheKey "a" "b:c" = cacheKey "a:b" "c") /\
  (forall ns k1 k2 : string,
      (ns, k1 +:+ (":" +:+ k2)) <> (ns +:+ (":" +:+ k1), k2) /\
      cacheKey ns (k1 +:+ (":" +:+ k2)) = cacheKey (ns +:+ (":" +:+ k1)) k2) /\
  (forall ns1 k1 ns2 k2 : string,
      cacheKey ns1 k1 = cacheKey ns2 k2 ->
      (forall now dao r v r',
          redis dao = Some r ->
          Redis.Get now (cacheKey ns1 k1) r = (v, None, r') ->
          fst (GetConfiguration now dao ns2 k2) =
          (Some (mkConfiguration 0 ns2 k2 v "" 0 0 None), None)) /\
      (forall dao r config config' dao1,
          redis dao = Some r ->
          Namespace config = ns2 -> Key config = k2 ->
          first_outcome (Redis.redis_outcomes r) = None ->
          CreateConfiguration dao config = (config', None, dao1) ->
          exists r1, redis dao1 = Some r1 /\
                     Redis.entries r1 !! cacheKey ns1 k1 = None)).
Proof.
  split; [split; [discriminate | reflexivity]|].
  split.
  - intros ns k1 k2. split; [|apply cacheKey_shift].
    intros H. injection H as H _. exact (append_grows _ _ H).
  - intros ns1 k1 ns2 k2 Hk. split.
    + intros now dao r v r' Hr Hg. rewrite Hk in Hg.
      now rewrite (GetConfiguration_hit now dao r ns2 k2 v r' Hr Hg).
    + intros dao r config config' dao1 Hr <- <- Ho Hc.
      rewrite CreateConfiguration_cases in Hc.
      destruct (Gorm.Create config (db dao)) as [[c [e|]] d]; [discriminate|].
      simpl in Hc. rewrite Hr in Hc. unfold best_effort in Hc. rewrite Ho in Hc.
      injection Hc as _ <-. eexists. split; [reflexivity|].
      simpl. rewrite Hk. apply lookup_delete_eq.
Qed.

Lemma cacheKey_not_injective_witness :
  let '(_, _, dao1) := GetConfiguration 0 dao_abc "a" "b:c" in
  Gorm.lookup_key "a:b" "c" (Gorm.table (db dao1)) = None /\
  fst (GetConfiguration 1 dao1 "a:b" "c") =
  (Some (mkConfiguration 0 "a:b" "c" "v" "" 0 0 None), None).
Proof.
  destruct cacheKey_not_injective as (_ & _ & H).
  destruct (H "a" "b:c" "a:b" "c" eq_refl) as [Hserve _].
  destruct (GetConfiguration 0 dao_abc "a" "b:c") as [[res err] dao1] eqn:E.
  vm_compute in E. injection E as _ _ <-.
  split; [reflexivity|].
  eapply Hserve; reflexivity.
Defined.

(** ** Rows and tombstones *)

Lemma least_id_In rows row : Gorm.least_id rows = Some row -> In row rows.
Proof.
  revert row. induction rows as [|c rows IH]; intros row; simpl; [discriminate|].
  destruct (Gorm.least_id rows) as [d|].
  - destruct (ID c <=? ID d)%N; intros H; injection H as <-; auto.
  - intros H; injection H as <-; auto.
Qed.

Lemma least_id_None rows : Gorm.least_id rows = None <-> rows = [].
Proof.
  split; [|intros ->; reflexivity].
  destruct rows as [|c rows]; [reflexivity|]. simpl.
  destruct (Gorm.least_id rows) as [d|]; [destruct (ID c <=? ID d)%N|]; discriminate.
Qed.

Lemma In_filter_bool (f : Configuration -> bool) x l :
  In x (filter (fun c => f c = true) l) <-> In x l /\ f x = true.
Proof.
  rewrite <- !list_elem_of_In, list_elem_of_filter. tauto.
Qed.

Lemma lookup_id_Some id t row :
  Gorm.lookup_id id t = Some row ->
  In row t /\ ID row = id /\ DeletedAt row = None.
Proof.
  unfold Gorm.lookup_id. intros H. apply least_id_In in H.
  apply In_filter_bool in H as [Hin Hb]. split; [exact Hin|].
  unfold Gorm.by_id, Gorm.live in Hb.
  apply andb_true_iff in Hb as [H1 H2].
  apply bool_decide_eq_true in H1. apply bool_decide_eq_true in H2. auto.
Qed.

Lemma filter_none (f : Configuration -> bool) l :
  (forall x, In x l -> f x = false) -> filter (fun c => f c = true) l = [].
Proof.
  induction l as [|c l IH]; intros H; [reflexivity|].
  rewrite filter_cons. destruct (decide (f c = true)) as [Hc|_].
  - rewrite (H c) in Hc by (left; reflexivity). discriminate.
  - apply IH. intros x Hx. apply H. right. exact Hx.
Qed.

(** Once its tombstone is set, a row is not found by its identifier. *)
Lemma lookup_id_tombstone now id t :
  Gorm.lookup_id id (Gorm.tombstone now id t) = None.
Proof.
  unfold Gorm.lookup_id. apply least_id_None. apply filter_none.
  intros x Hx. unfold Gorm.tombstone in Hx. apply in_map_iff in Hx as (c & <- & _).
  destruct (Gorm.by_id id c) eqn:Hc; [reflexivity | exact Hc].
Qed.

(** ** Delete *)

(** C7. [DeleteConfiguration] first looks the record up by identifier.
    When the lookup fails, because the query fails or because there is no
    live row with the identifier, its error is returned, the table is as
    before, only that one call reached the store and the cache and the log
    are untouched.  When it succeeds, the row gets its tombstone, after
    which it is no longer found, and the cache entry under the composite
    key of the row is deleted; a failure of that deletion is logged and
    the operation succeeds all the same.  A failure of the soft delete is
    returned without any call to the cache. *)
Theorem delete_looks_up_then_invalidates now dao id :
  let '(err, dao') := DeleteConfiguration now dao id in
  let untouched :=
      Gorm.table (db dao') = Gorm.table (db dao) /\
      redis dao' = redis dao /\ log dao' = log dao in
  match first_outcome (Gorm.db_outcomes (db dao)),
        Gorm.lookup_id id (Gorm.table (db dao)) with
  | Some msg, _ =>
    err = Some (DBError msg) /\ untouched /\
    Gorm.db_outcomes (db dao') = snd (next_outcome (Gorm.db_outcomes (db dao)))
  | None, None =>
    err = Some ErrRecordNotFound /\ untouched /\
    Gorm.db_outcomes (db dao') = snd (next_outcome (Gorm.db_outcomes (db dao)))
  | None, Some row =>
    match second_outcome (Gorm.db_outcomes (db dao)) with
    | Some msg => err = Some (DBError msg) /\ untouched
    | None =>
      err = None /\
      Gorm.table (db dao') = Gorm.tombstone now id (Gorm.table (db dao)) /\
      Gorm.lookup_id id (Gorm.table (db dao')) = None /\
      match redis dao with
      | None => redis dao' = None /\ log dao' = log dao
      | Some r =>
        exists r', redis dao' = Some r' /\
        match first_outcome (Redis.redis_outcomes r) with
        | None =>
          Redis.entries r' =
            delete (cacheKey (Namespace row) (Key row)) (Redis.entries r) /\
          log dao' = log dao
        | Some msg =>
          Redis.entries r' = Redis.entries r /\
          log dao' = log dao ++
            [cache_warning "Failed to invalidate cache" (RedisError msg)
                           (cacheKey (Namespace row) (Key row))]
        end
      end
    end
  end.
Proof.
  rewrite DeleteConfiguration_cases.
  unfold Gorm.First_id, Gorm.First, Gorm.Delete, first_outcome, second_outcome.
  destruct (next_outcome (Gorm.db_outcomes (db dao))) as [[msg|] s]; simpl.
  { repeat split. }
  destruct (Gorm.lookup_id id (Gorm.table (db dao))) as [row|] eqn:Hrow; simpl.
  2:{ repeat split. }
  apply lookup_id_Some in Hrow as (_ & Hid & _).
  destruct (next_outcome s) as [[msg|] s2]; simpl.
  { repeat split. }
  destruct (redis dao) as [r|] eqn:Hr; simpl.
  - rewrite best_effort_db. simpl. rewrite Hid.
    split; [reflexivity|]. split; [reflexivity|].
    split; [apply lookup_id_tombstone|].
    unfold best_effort, first_outcome.
    destruct (fst (next_outcome (Redis.redis_outcomes r))); simpl;
      eexists; (split; [reflexivity|]); simpl; auto.
  - rewrite Hid. repeat split; try assumption. apply lookup_id_tombstone.
Qed.

(** ** The create path of the service *)

Lemma GetConfiguration_shape now dao namespace key :
  let '(res, err, _) := GetConfiguration now dao namespace key in
  (exists c, res = Some c /\ err = None) \/ (res = None /\ exists e, err = Some e).
Proof.
  assert (Hrs : forall dao1,
             let '(res, err, _) := read_store now dao1 namespace key in
             (exists c, res = Some c /\ err = None) \/
             (res = None /\ exists e, err = Some e)).
  { intros dao1. pose proof (read_store_answer now dao1 namespace key) as H.
    destruct (read_store now dao1 namespace key) as [[res err] dao2]. simpl in H.
    unfold store_answer in H.
    destruct (Gorm.First_where _ _ _ _) as [[c [e|]] d];
      injection H as -> ->; eauto. }
  destruct (redis dao) as [r|] eqn:Hr.
  - destruct (Redis.Get now (cacheKey namespace key) r) as [[cached [e|]] r1] eqn:Hg.
    + rewrite (GetConfiguration_fall_through _ _ _ _ _ _ _ _ Hr Hg). apply Hrs.
    + rewrite (GetConfiguration_hit _ _ _ _ _ _ _ Hr Hg). eauto.
  - rewrite (GetConfiguration_nil _ _ _ _ Hr). apply Hrs.
Qed.

Lemma service_create_cases now s data :
  Services.CreateConfiguration now s data =
  match request data with
  | None =>
    match Services.as_string data "namespace" with
    | (namespace, ok) =>
      if negb ok || bool_decide (namespace = "")
      then (None, Some (ValidationError "namespace" "namespace is required and must be a string"), s)
      else (None, Some (ValidationError "key" "key is required and must be a string"), s)
    end
  | Some (namespace, key, value, description) =>
    let '(existing, err, dao) :=
        GetSpecificConfiguration now (Services.configDAO s) namespace key in
    match existing with
    | Some _ =>
      (None, Some (ConflictError "configuration already exists"),
       Services.mkConfigService dao)
    | None =>
      let config := mkConfiguration 0 namespace key value description now now None in
      let '(config, err, dao) := CreateConfiguration dao config in
      match err with
      | Some e =>
        (None, Some e,
         Services.mkConfigService
           (Services.Log ErrorLevel (Some e) [("namespace", namespace); ("key", key)]
                         "Failed to create configuration" dao))
      | None =>
        (Some config, None,
         Services.mkConfigService
           (Services.Log InfoLevel None [("namespace", namespace); ("key", key)]
                         "Configuration created successfully" dao))
      end
    end
  end.
Proof.
  unfold Services.CreateConfiguration, request.
  destruct (Services.as_string data "namespace") as [namespace ok] eqn:Hn.
  unfold Services.as_string in Hn.
  destruct (data !! "namespace") as [[ns| | |]|]; injection Hn as <- <-;
    try reflexivity.
  simpl negb. simpl orb.
  destruct (bool_decide (ns = "")) eqn:Hne.
  { destruct (data !! "key") as [[k| | |]|]; reflexivity. }
  destruct (Services.as_string data "key") as [key ok] eqn:Hk.
  unfold Services.as_string in Hk.
  destruct (data !! "key") as [[k| | |]|]; injection Hk as <- <-;
    try reflexivity.
  simpl negb. simpl orb.
  destruct (bool_decide (k = "")) eqn:Hke; [reflexivity|].
  destruct (Services.as_string data "value") as [value okv].
  destruct (Services.as_string data "description") as [description okd].
  simpl fst.
  pose proof (GetConfiguration_shape now (Services.configDAO s) ns k) as Hs.
  change (GetSpecificConfiguration now (Services.configDAO s) ns k)
    with (GetConfiguration now (Services.configDAO s) ns k).
  destruct (GetConfiguration now (Services.configDAO s) ns k) as [[existing err] dao].
  destruct Hs as [(c & -> & ->) | (-> & e & ->)]; reflexivity.
Qed.

(** The create path of the service, by the answer of its lookup.  A
    request that fails validation reaches neither the cache nor the store.
    For a valid request the lookup of the pair comes first: when it
    returns a configuration the result is a conflict and the table is as
    before; when it returns none, be it because nothing is found or
    because the lookup failed, the insert is issued on the store as the
    lookup left it, and the new row, with a fresh identifier, is appended
    when the insert goes through. *)
Theorem service_create_checks_before_insert now s data :
  let '(res, err, s') := Services.CreateConfiguration now s data in
  let before := Gorm.table (db (Services.configDAO s)) in
  let after := Gorm.table (db (Services.configDAO s')) in
  match request data with
  | None => (exists f m, err = Some (ValidationError f m)) /\ res = None /\ s' = s
  | Some (namespace, key, value, description) =>
    let '(existing, _, dao1) :=
        GetSpecificConfiguration now (Services.configDAO s) namespace key in
    match existing with
    | Some _ =>
      res = None /\ err = Some (ConflictError "configuration already exists") /\
      s' = Services.mkConfigService dao1 /\ after = before
    | None =>
      let config := mkConfiguration 0 namespace key value description now now None in
      let '(config', ierr, d) := Gorm.Create config (db dao1) in
      err = ierr /\ db (Services.configDAO s') = d /\
      match ierr with
      | Some _ => res = None /\ after = before
      | None =>
        res = Some config' /\ after = before ++ [config'] /\
        config' = with_ID (Gorm.next_id before) config
      end
    end
  end.
Proof.
  rewrite service_create_cases.
  destruct (request data) as [[[[namespace key] value] description]|].
  2:{ destruct (Services.as_string data "namespace") as [ns ok].
      destruct (negb ok || bool_decide (ns = "")); simpl; eauto. }
  change (GetSpecificConfiguration now (Services.configDAO s) namespace key)
    with (GetConfiguration now (Services.configDAO s) namespace key).
  assert (Ht : Gorm.table (db (snd (GetConfiguration now (Services.configDAO s) namespace key)))
               = Gorm.table (db (Services.configDAO s))).
  { destruct (redis (Services.configDAO s)) as [r|] eqn:Hr.
    - destruct (Redis.Get now (cacheKey namespace key) r) as [[cached [e|]] r1] eqn:Hg.
      + rewrite (GetConfiguration_fall_through _ _ _ _ _ _ _ _ Hr Hg).
        rewrite read_store_db. unfold Gorm.First_where.
        rewrite (proj1 (First_table _ _ _)).
        unfold warn_get. destruct (bool_decide _); reflexivity.
      + now rewrite (GetConfiguration_hit _ _ _ _ _ _ _ Hr Hg).
    - rewrite (GetConfiguration_nil _ _ _ _ Hr).
      rewrite read_store_db. unfold Gorm.First_where.
      now rewrite (proj1 (First_table _ _ _)). }
  destruct (GetConfiguration now (Services.configDAO s) namespace key)
    as [[[c|] rerr] dao1]; simpl in Ht.
  { simpl. auto. }
  cbv zeta. rewrite CreateConfiguration_cases.
  unfold Gorm.Create. rewrite Ht.
  destruct (next_outcome (Gorm.db_outcomes (db dao1))) as [[msg|] rest]; simpl.
  { auto. }
  destruct (redis dao1) as [r|]; simpl; [rewrite best_effort_db|]; simpl; auto.
Qed.

(** C8.  The insert is not issued only when the lookup finds nothing: a
    lookup that fails is taken for one that found nothing.  The store
    holds a live row for ("build", "timeout"); the query of the duplicate
    check fails with a failure of the store, which is not the not-found
    outcome; the create of the same pair nevertheless goes on to the
    insert and succeeds, and the store then holds two live rows for the
    pair. *)
Example service_create_after_failed_lookup :
  let s := Services.mkConfigService
             (mkConfigDAO (Gorm.mkDB [row30] [Some "connection reset"]) None []) in
  Gorm.lookup_key "build" "timeout" [row30] = Some row30 /\
  fst (GetSpecificConfiguration 9 (Services.configDAO s) "build" "timeout") =
  (None, Some (DBError "connection reset")) /\
  let '(res, err, s') := Services.CreateConfiguration 9 s body60 in
  res = Some (mkConfiguration 2 "build" "timeout" "60" "" 9 9 None) /\
  err = None /\
  Gorm.table (db (Services.configDAO s')) =
  [row30; mkConfiguration 2 "build" "timeout" "60" "" 9 9 None].
Proof. vm_compute. repeat split. Qed.

(** C9. The duplicate check of the service goes through the cache.  When
    the cache answers the lookup of the pair of a valid request, whatever
    the store holds for that pair, the result is a conflict: no call
    reaches the store, nothing is inserted, and the entries of the cache
    are left as they are. *)
Theorem service_create_conflicts_on_cached_value now s data namespace key r cached r' :
  data !! "namespace" = Some (Services.VString namespace) -> namespace <> "" ->
  data !! "key" = Some (Services.VString key) -> key <> "" ->
  redis (Services.configDAO s) = Some r ->
  Redis.Get now (cacheKey namespace key) r = (cached, None, r') ->
  Services.CreateConfiguration now s data =
    (None, Some (ConflictError "configuration already exists"),
     Services.mkConfigService (set_redis (Some r') (Services.configDAO s))) /\
  db (set_redis (Some r') (Services.configDAO s)) = db (Services.configDAO s) /\
  Redis.entries r' = Redis.entries r /\
  log (set_redis (Some r') (Services.configDAO s)) = log (Services.configDAO s).
Proof.
  intros Hn Hne Hk Hke Hr Hg.
  rewrite service_create_cases. unfold request. rewrite Hn, Hk.
  rewrite (bool_decide_eq_false_2 _ Hne), (bool_decide_eq_false_2 _ Hke). simpl orb.
  cbv iota.
  change (GetSpecificConfiguration now (Services.configDAO s) namespace key)
    with (GetConfiguration now (Services.configDAO s) namespace key).
  rewrite (GetConfiguration_hit _ _ _ _ _ _ _ Hr Hg).
  apply Redis_Get_hit in Hg as (_ & _ & ->).
  repeat split.
Qed.

Lemma service_create_conflicts_on_cached_value_witness :
  Gorm.lookup_key "build" "timeout" (Gorm.table (db dao_cached)) = None /\
  Services.CreateConfiguration 0 (Services.mkConfigService dao_cached) body60 =
    (None, Some (ConflictError "configuration already exists"),
     Services.mkConfigService dao_cached).
Proof.
  split; [reflexivity|].
  refine (proj1 (service_create_conflicts_on_cached_value 0
                   (Services.mkConfigService dao_cached) body60 "build" "timeout"
                   (one_entry "config:build:timeout" "30" 1000) "30"
                   (one_entry "config:build:timeout" "30" 1000)
                   eq_refl _ eq_refl _ eq_refl eq_refl)); discriminate.
Defined.

(** ** Without a cache *)

(** C5, as stated, fails for the read: in the state reached by a create, a
    fetch and a rename of ("build", "timeout"), with the cache configured
    the fetch of the old pair still succeeds from the cache, and without
    cache it is not found. *)
Lemma no_cache_fetch_differs :
  let cached := GetConfiguration 300 after_rename "build" "timeout" in
  let plain := GetConfiguration 300 (set_redis None after_rename) "build" "timeout" in
  snd (fst cached) = None /\
  snd (fst plain) = Some ErrRecordNotFound /\
  ~ same_outcome (snd (fst cached)) (snd cached) (snd (fst plain)) (snd plain).
Proof.
  split; [reflexivity|]. split; [reflexivity|].
  intros [H _]. vm_compute in H. discriminate.
Qed.

(** C5, amended.  Without a cache the four operations are the direct
    accesses to the store: the cache stays absent and nothing is logged.
    With a cache, create, update and delete return the same error and
    leave the store in the same state as without; so does the fetch
    whenever the cache get does not answer with a value. *)
Theorem no_cache_is_direct_store_access now d r l :
  let cached := mkConfigDAO d (Some r) l in
  let plain := mkConfigDAO d None l in
  ((forall namespace key,
       GetConfiguration now plain namespace key =
       let '(res, err, d') := direct_fetch namespace key d in
       (res, err, mkConfigDAO d' None l)) /\
   (forall config,
       CreateConfiguration plain config =
       let '(config', err, d') := direct_create config d in
       (config', err, mkConfigDAO d' None l)) /\
   (forall config,
       UpdateConfiguration now plain config =
       let '(config', err, d') := direct_update config d in
       (config', err, mkConfigDAO d' None l)) /\
   (forall id,
       DeleteConfiguration now plain id =
       let '(err, d') := direct_delete now id d in
       (err, mkConfigDAO d' None l))) /\
  ((forall config,
       let '(c1, e1, dao1) := CreateConfiguration cached config in
       let '(c2, e2, dao2) := CreateConfiguration plain config in
       c1 = c2 /\ same_outcome e1 dao1 e2 dao2) /\
   (forall config,
       let '(c1, e1, dao1) := UpdateConfiguration now cached config in
       let '(c2, e2, dao2) := UpdateConfiguration now plain config in
       c1 = c2 /\ same_outcome e1 dao1 e2 dao2) /\
   (forall id,
       let '(e1, dao1) := DeleteConfiguration now cached id in
       let '(e2, dao2) := DeleteConfiguration now plain id in
       same_outcome e1 dao1 e2 dao2) /\
   (forall namespace key,
       snd (fst (Redis.Get now (cacheKey namespace key) r)) <> None ->
       let '(res1, e1, dao1) := GetConfiguration now cached namespace key in
       let '(res2, e2, dao2) := GetConfiguration now plain namespace key in
       res1 = res2 /\ same_outcome e1 dao1 e2 dao2)).
Proof.
  intros cached plain. split; [split; [|split; [|split]] | split; [|split; [|split]]].
  - intros namespace key. rewrite (GetConfiguration_nil now plain namespace key eq_refl).
    unfold read_store, direct_fetch. simpl.
    destruct (Gorm.First_where namespace key Models.zero d) as [[config [e|]] d'];
      reflexivity.
  - intros config. rewrite CreateConfiguration_cases. unfold direct_create. simpl.
    destruct (Gorm.Create config d) as [[config' [e|]] d']; reflexivity.
  - intros config. rewrite UpdateConfiguration_cases. unfold direct_update. simpl.
    destruct (Gorm.Save config d) as [[config' [e|]] d']; reflexivity.
  - intros id. rewrite DeleteConfiguration_cases. unfold direct_delete. simpl.
    destruct (Gorm.First_id id Models.zero d) as [[config [e|]] d']; [reflexivity|].
    destruct (Gorm.Delete now config d') as [[e|] d2]; reflexivity.
  - intros config. rewrite !CreateConfiguration_cases. simpl.
    destruct (Gorm.Create config d) as [[config' [e|]] d']; simpl.
    + split; [reflexivity | split; reflexivity].
    + split; [reflexivity | split; [reflexivity | now rewrite best_effort_db]].
  - intros config. rewrite !UpdateConfiguration_cases. simpl.
    destruct (Gorm.Save config d) as [[config' [e|]] d']; simpl.
    + split; [reflexivity | split; reflexivity].
    + split; [reflexivity | split; [reflexivity | now rewrite best_effort_db]].
  - intros id. rewrite !DeleteConfiguration_cases. simpl.
    destruct (Gorm.First_id id Models.zero d) as [[config [e|]] d'];
      [split; reflexivity|].
    destruct (Gorm.Delete now config d') as [[e|] d2]; simpl;
      [split; reflexivity|].
    split; [reflexivity | now rewrite best_effort_db].
  - intros namespace key Hmiss.
    destruct (Redis.Get now (cacheKey namespace key) r) as [[v [e|]] r1] eqn:Hg;
      [|now elim Hmiss].
    rewrite (GetConfiguration_fall_through now cached r namespace key v e r1 eq_refl Hg).
    rewrite (GetConfiguration_nil now plain namespace key eq_refl).
    set (dao1 := warn_get e _ _).
    assert (Hdb : db dao1 = d)
      by (unfold dao1, warn_get; destruct (bool_decide _); reflexivity).
    pose proof (read_store_answer now dao1 namespace key) as H1.
    pose proof (read_store_answer now plain namespace key) as H2.
    pose proof (read_store_db now dao1 namespace key) as D1.
    pose proof (read_store_db now plain namespace key) as D2.
    unfold store_answer in H1, H2. rewrite Hdb in H1, D1. simpl in H2, D2.
    destruct (read_store now dao1 namespace key) as [[res1 e1] dao1'].
    destruct (read_store now plain namespace key) as [[res2 e2] dao2'].
    simpl in H1, H2, D1, D2. rewrite <- H2 in H1. injection H1 as -> ->.
    split; [reflexivity|]. split; [reflexivity | congruence].
Qed.

Lemma no_cache_is_direct_store_access_witness :
  fst (GetConfiguration 7 (dao_stored [Some "i/o timeout"]) "build" "timeout") =
  fst (GetConfiguration 7 (set_redis None (dao_stored [Some "i/o timeout"]))
                        "build" "timeout").
Proof.
  pose proof (proj2 (no_cache_is_direct_store_access 7 (Gorm.mkDB [row30] [])
                       (Redis.mkClient ∅ [Some "i/o timeout"]) [])) as (_ & _ & _ & H).
  specialize (H "build" "timeout" ltac:(discriminate)).
  change (mkConfigDAO (Gorm.mkDB [row30] [])
                      (Some (Redis.mkClient ∅ [Some "i/o timeout"])) [])
    with (dao_stored [Some "i/o timeout"]) in H.
  change (mkConfigDAO (Gorm.mkDB [row30] []) None [])
    with (set_redis None (dao_stored [Some "i/o timeout"])) in H.
  destruct (GetConfiguration 7 (dao_stored [Some "i/o timeout"]) "build" "timeout")
    as [[res1 e1] dao1].
  destruct (GetConfiguration 7 (set_redis None (dao_stored [Some "i/o timeout"]))
                             "build" "timeout") as [[res2 e2] dao2].
  destruct H as (-> & -> & _). reflexivity.
Defined.

(** ** Create and the stale entry *)

Lemma warn_get_db e k dao : db (warn_get e k dao) = db dao.
Proof. unfold warn_get. destruct (bool_decide _); reflexivity. Qed.

Lemma store_answer_db dao1 dao2 namespace key :
  db dao1 = db dao2 ->
  store_answer dao1 namespace key = store_answer dao2 namespace key.
Proof. unfold store_answer. now intros ->. Qed.

(** A fetch the cache does not answer is answered by the store. *)
Lemma GetConfiguration_absent now dao namespace key :
  match redis dao with
  | Some r => Redis.held now (cacheKey namespace key) (Redis.entries r) = None
  | None => True
  end ->
  fst (GetConfiguration now dao namespace key) = store_answer dao namespace key.
Proof.
  destruct (redis dao) as [r|] eqn:Hr; intros Habs.
  - destruct (Redis.Get now (cacheKey namespace key) r) as [[cached [e|]] r1] eqn:Hg.
    + rewrite (GetConfiguration_fall_through _ _ _ _ _ _ _ _ Hr Hg).
      rewrite read_store_answer. apply store_answer_db.
      now rewrite warn_get_db.
    + apply Redis_Get_hit in Hg as (_ & Hheld & _). congruence.
  - rewrite (GetConfiguration_nil _ _ _ _ Hr). apply read_store_answer.
Qed.

Lemma held_delete now key m : Redis.held now key (delete key m) = None.
Proof. unfold Redis.held. now rewrite lookup_delete_eq. Qed.

(** The lookup of a pair in a table that held no live row for it, after
    one row has been appended. *)
Lemma lookup_key_snoc namespace key t row :
  Gorm.lookup_key namespace key t = None ->
  Gorm.lookup_key namespace key (t ++ [row]) =
  if Gorm.by_key namespace key row then Some row else None.
Proof.
  unfold Gorm.lookup_key. intros H. apply least_id_None in H.
  rewrite filter_app, H, filter_cons, filter_nil. simpl.
  destruct (Gorm.by_key namespace key row); reflexivity.
Qed.

(** C3, as stated, fails when the deletion of the cache entry fails: the
    cache holds ["10"] for ("build", "timeout"), the create of that pair
    with value ["30"] succeeds, and the fetch that follows is served the
    stale ["10"]. *)
Lemma create_with_failed_invalidation_serves_stale :
  let dao := dao_stale [Some "i/o timeout"] in
  exists dao1 dao2,
    CreateConfiguration dao c30 = (row30, None, dao1) /\
    GetConfiguration 0 dao1 "build" "timeout" =
    (Some (mkConfiguration 0 "build" "timeout" "10" "" 0 0 None), None, dao2) /\
    "10" <> Value c30.
Proof.
  simpl. do 2 eexists. split; [reflexivity|]. split; [reflexivity | discriminate].
Qed.

(** C3, amended.  [CreateConfiguration] inserts first.  When the insert
    fails its error is returned and neither the cache nor the log is
    touched.  When it succeeds the cache entry under the composite key of
    the entry is deleted, never overwritten, and the result is a success
    whether or not that deletion fails; a failure is logged and leaves the
    cache as it was.  When the deletion goes through, a fetch of the pair
    that follows is answered by the store and not by the cache; when the
    store held no live row for the pair before, the only record such a
    fetch returns is the one created, with the value created. *)
Theorem create_invalidates_cache dao config :
  let '(config', err, dao1) := CreateConfiguration dao config in
  let k := cacheKey (Namespace config) (Key config) in
  match Gorm.Create config (db dao) with
  | (_, Some e, d) =>
    err = Some e /\ db dao1 = d /\ redis dao1 = redis dao /\ log dao1 = log dao
  | (row, None, d) =>
    err = None /\ config' = row /\ db dao1 = d /\
    match redis dao with
    | None => redis dao1 = None /\ log dao1 = log dao
    | Some r =>
      exists r1, redis dao1 = Some r1 /\
      match first_outcome (Redis.redis_outcomes r) with
      | Some msg =>
        Redis.entries r1 = Redis.entries r /\
        log dao1 = log dao ++
                   [cache_warning "Failed to invalidate cache" (RedisError msg) k]
      | None =>
        Redis.entries r1 = delete k (Redis.entries r) /\ log dao1 = log dao /\
        forall now,
          let '(res, ferr, _) :=
              GetConfiguration now dao1 (Namespace config) (Key config) in
          (res, ferr) = store_answer dao1 (Namespace config) (Key config) /\
          (Gorm.lookup_key (Namespace config) (Key config) (Gorm.table (db dao)) = None ->
           forall c, res = Some c -> c = row /\ Value c = Value config)
      end
    end
  end.
Proof.
  rewrite CreateConfiguration_cases.
  pose proof (Create_keeps config (db dao)) as (Hn & Hk & Hv & _).
  destruct (Gorm.Create config (db dao)) as [[row [e|]] d] eqn:Hcreate; simpl.
  { auto. }
  simpl in Hn, Hk, Hv.
  destruct (redis dao) as [r|] eqn:Hr; simpl; [|auto].
  rewrite best_effort_db. simpl.
  split; [reflexivity|]. split; [reflexivity|]. split; [reflexivity|].
  unfold best_effort. destruct (first_outcome (Redis.redis_outcomes r)) as [msg|].
  { eexists. split; [reflexivity|]. simpl. auto. }
  eexists. split; [reflexivity|]. simpl.
  split; [reflexivity|]. split; [reflexivity|]. intros now.
  set (dao1 := set_redis _ _).
  pose proof (GetConfiguration_absent now dao1 (Namespace config) (Key config)) as Ha.
  simpl in Ha. specialize (Ha (held_delete _ _ _)).
  destruct (GetConfiguration now dao1 (Namespace config) (Key config))
    as [[res ferr] dao2]. simpl in Ha.
  split; [exact Ha|]. intros Hnone c ->.
  rewrite store_answer_cases in Ha. simpl in Ha.
  destruct (fst (next_outcome (Gorm.db_outcomes d))); [discriminate|].
  assert (Ht : Gorm.table d = Gorm.table (db dao) ++ [row] ).
  { unfold Gorm.Create in Hcreate.
    destruct (next_outcome (Gorm.db_outcomes (db dao))) as [[m|] s]; [discriminate|].
    destruct (bool_decide (ID config = 0%N)).
    - now injection Hcreate as <- <-.
    - destruct (Gorm.has_id _ _); [discriminate|]. now injection Hcreate as <- <-. }
  rewrite Ht, (lookup_key_snoc _ _ _ row Hnone) in Ha.
  destruct (Gorm.by_key _ _ row); [|discriminate]. injection Ha as ->.
  split; [reflexivity | exact Hv].
Qed.

Lemma create_invalidates_cache_witness :
  fst (fst (GetConfiguration 0 (snd (CreateConfiguration (dao_stale []) c30))
                             "build" "timeout")) = Some row30.
Proof.
  pose proof (create_invalidates_cache (dao_stale []) c30) as H.
  destruct (CreateConfiguration (dao_stale []) c30) as [[config' err] dao1].
  simpl in H. destruct H as (_ & _ & Hd & r1 & _ & _ & _ & H).
  specialize (H 0%Z). simpl snd.
  destruct (GetConfiguration 0 dao1 "build" "timeout") as [[res ferr] dao2].
  destruct H as [H _]. rewrite store_answer_cases, Hd in H.
  vm_compute in H. injection H as -> _. reflexivity.
Defined.

(** ** Update and the fetches that follow *)

Lemma read_store_table now dao namespace key :
  Gorm.table (db (snd (read_store now dao namespace key))) = Gorm.table (db dao).
Proof. rewrite read_store_db. unfold Gorm.First_where. apply First_table. Qed.

Lemma store_answer_fresh v namespace key dao row :
  Gorm.lookup_key namespace key (Gorm.table (db dao)) = Some row ->
  Value row = v ->
  fresh v (store_answer dao namespace key).
Proof.
  intros Hrow Hv. rewrite store_answer_cases, Hrow. unfold fresh.
  destruct (fst (next_outcome _)); simpl; eauto.
Qed.

Lemma held_Some now key m v :
  Redis.held now key m = Some v ->
  exists expiry, m !! key = Some (v, expiry) /\ (now < expiry)%Z.
Proof.
  unfold Redis.held. destruct (m !! key) as [[val expiry]|]; [|discriminate].
  destruct (bool_decide (now < expiry)%Z) eqn:Hlt; [|discriminate].
  intros H; injection H as <-. apply bool_decide_eq_true in Hlt. eauto.
Qed.

(** A fetch of the pair in a settled state carries the value and leaves
    the state settled. *)
Lemma fetch_settled v namespace key t dao :
  settled v namespace key dao ->
  fresh v (fst (GetConfiguration t dao namespace key)) /\
  settled v namespace key (snd (GetConfiguration t dao namespace key)).
Proof.
  intros [Hcache (row & Hrow & Hv)].
  assert (Hrs : forall dao1,
             db dao1 = db dao ->
             match redis dao1 with
             | Some r =>
               forall val expiry,
                 Redis.entries r !! cacheKey namespace key = Some (val, expiry) -> val = v
             | None => True
             end ->
             fresh v (fst (read_store t dao1 namespace key)) /\
             settled v namespace key (snd (read_store t dao1 namespace key))).
  { intros dao1 Hdb Hc1.
    pose proof (read_store_answer t dao1 namespace key) as Hans.
    rewrite (store_answer_db dao1 dao _ _ Hdb) in Hans.
    pose proof (store_answer_fresh v namespace key dao row Hrow Hv) as Hf.
    rewrite <- Hans in Hf. split; [exact Hf|].
    split.
    - destruct (redis dao1) as [r|] eqn:Hr1.
      + pose proof (read_store_cache t dao1 r namespace key Hr1) as (r' & -> & Hc).
        intros val expiry Hl.
        destruct (fst (fst (read_store t dao1 namespace key))) as [config|] eqn:Hres.
        * assert (Hvc : Value config = v).
          { unfold fresh in Hf. rewrite Hans in Hf.
            rewrite store_answer_cases, Hrow in Hf, Hans.
            destruct (fst (next_outcome (Gorm.db_outcomes (db dao)))).
            - rewrite (surjective_pairing (fst (read_store t dao1 namespace key))) in Hans.
              rewrite Hres in Hans. discriminate.
            - rewrite (surjective_pairing (fst (read_store t dao1 namespace key))) in Hans.
              rewrite Hres in Hans. injection Hans as -> _. exact Hv. }
          destruct Hc as [_ Hc].
          destruct (fst (next_outcome (Redis.redis_outcomes r))).
          -- destruct Hc as [He _]. rewrite He in Hl. eapply Hc1, Hl.
          -- destruct Hc as [He _]. rewrite He, lookup_insert_eq in Hl.
             injection Hl as <- _. exact Hvc.
        * destruct Hc as [-> _]. eapply Hc1, Hl.
      + now rewrite (proj1 (read_store_nil t dao1 namespace key Hr1)).
    - exists row. rewrite read_store_table, Hdb. auto. }
  destruct (redis dao) as [r|] eqn:Hr.
  - destruct (Redis.Get t (cacheKey namespace key) r) as [[cached [e|]] r1] eqn:Hg.
    + rewrite (GetConfiguration_fall_through _ _ _ _ _ _ _ _ Hr Hg).
      apply Redis_Get_miss in Hg as [-> _].
      apply Hrs; [now rewrite warn_get_db|].
      unfold warn_get. destruct (bool_decide _); exact Hcache.
    + rewrite (GetConfiguration_hit _ _ _ _ _ _ _ Hr Hg).
      apply Redis_Get_hit in Hg as (_ & Hheld & ->).
      apply held_Some in Hheld as (expiry & Hl & _).
      split.
      * unfold fresh. simpl. eexists. split; [reflexivity|]. simpl. eapply Hcache, Hl.
      * split; [exact Hcache | eauto].
  - rewrite (GetConfiguration_nil _ _ _ _ Hr). apply Hrs; [reflexivity|].
    now rewrite Hr.
Qed.

Lemma fetches_settled v namespace key times :
  forall dao, settled v namespace key dao ->
              Forall (fresh v) (fetches times dao namespace key).
Proof.
  induction times as [|t times IH]; intros dao Hs; simpl; [constructor|].
  pose proof (fetch_settled v namespace key t dao Hs) as [Hf Hs'].
  destruct (GetConfiguration t dao namespace key) as [[res err] dao'].
  constructor; [exact Hf | apply IH; exact Hs'].
Qed.

(** ** Scenarios *)

(** After [create] of ("build", "timeout") with value ["30"], the fetch
    returns ["30"] and the cache holds it under [config:build:timeout]. *)
Example create_then_fetch :
  let '(_, _, dao) := CreateConfiguration dao_empty c30 in
  let '(res, err, dao) := GetConfiguration 0 dao "build" "timeout" in
  res = Some row30 /\ err = None /\
  (Redis.entries <$> redis dao) =
  Some {[ "config:build:timeout" := ("30", 300000000000%Z) ]}.
Proof. vm_compute. repeat split. Qed.

(** With an empty cache and an empty table the fetch is not found, and
    nothing is written to the cache. *)
Example fetch_nonexistent :
  GetConfiguration 0 dao_empty "nonexistent" "x" =
  (None, Some ErrRecordNotFound, dao_empty).
Proof. reflexivity. Qed.

(** An entry is served until its expiry instant and not from then on. *)
Example entry_expires :
  Redis.held 999 "config:build:timeout" (Redis.entries (one_entry "config:build:timeout" "30" 1000))
  = Some "30" /\
  Redis.held 1000 "config:build:timeout" (Redis.entries (one_entry "config:build:timeout" "30" 1000))
  = None.
Proof. split; reflexivity. Qed.

(** A second delete of the same identifier fails at the lookup. *)
Example delete_twice :
  let '(_, _, dao) := CreateConfiguration dao_empty c30 in
  let '(err1, dao) := DeleteConfiguration 5 dao 1 in
  let '(err2, _) := DeleteConfiguration 6 dao 1 in
  err1 = None /\ err2 = Some ErrRecordNotFound.
Proof. vm_compute. split; reflexivity. Qed.

(** * Further properties *)

(** ** Lookups by identifier *)

Lemma First_into_zero id d :
  Gorm.First_into id Models.zero d = Gorm.First_id id Models.zero d.
Proof.
  unfold Gorm.First_into, Gorm.First_id, Gorm.lookup_id. do 3 f_equal.
  apply list_filter_iff. intros c. simpl. now rewrite andb_true_r.
Qed.

Lemma First_id_cases id d :
  Gorm.First_id id Models.zero d =
  let d' := Gorm.mkDB (Gorm.table d) (snd (next_outcome (Gorm.db_outcomes d))) in
  match first_outcome (Gorm.db_outcomes d), Gorm.lookup_id id (Gorm.table d) with
  | Some msg, _ => (Models.zero, Some (DBError msg), d')
  | None, Some row => (row, None, d')
  | None, None => (Models.zero, Some ErrRecordNotFound, d')
  end.
Proof.
  unfold Gorm.First_id, Gorm.First, first_outcome.
  destruct (next_outcome (Gorm.db_outcomes d)) as [[msg|] s]; simpl; [reflexivity|].
  destruct (Gorm.lookup_id id (Gorm.table d)); reflexivity.
Qed.

Lemma GetConfigurationByID_cases dao id :
  GetConfigurationByID dao id Models.zero =
  let d' := Gorm.mkDB (Gorm.table (db dao))
                      (snd (next_outcome (Gorm.db_outcomes (db dao)))) in
  match first_outcome (Gorm.db_outcomes (db dao)),
        Gorm.lookup_id id (Gorm.table (db dao)) with
  | Some msg, _ => (Models.zero, Some (DBError msg), set_db d' dao)
  | None, Some row => (row, None, set_db d' dao)
  | None, None => (Models.zero, Some ErrRecordNotFound, set_db d' dao)
  end.
Proof.
  unfold GetConfigurationByID. rewrite First_into_zero, First_id_cases.
  destruct (first_outcome _) as [msg|]; [reflexivity|].
  destruct (Gorm.lookup_id _ _); reflexivity.
Qed.

Lemma has_id_true id t : Gorm.has_id id t = true <-> exists c, In c t /\ ID c = id.
Proof.
  unfold Gorm.has_id. rewrite existsb_exists. split.
  - intros (c & Hc & Hb). apply bool_decide_eq_true in Hb. eauto.
  - intros (c & Hc & Hb). exists c. split; [exact Hc|]. now apply bool_decide_eq_true.
Qed.

Lemma has_id_false id t : Gorm.has_id id t = false -> forall c, In c t -> ID c <> id.
Proof.
  intros H c Hc Hid. assert (Gorm.has_id id t = true) by (apply has_id_true; eauto).
  congruence.
Qed.

Lemma by_id_true id c : Gorm.by_id id c = true <-> DeletedAt c = None /\ ID c = id.
Proof.
  unfold Gorm.by_id, Gorm.live.
  rewrite andb_true_iff, !bool_decide_eq_true. tauto.
Qed.

Lemma by_key_true namespace key c :
  Gorm.by_key namespace key c = true <->
  DeletedAt c = None /\ Namespace c = namespace /\ Key c = key.
Proof.
  unfold Gorm.by_key, Gorm.live.
  rewrite !andb_true_iff, !bool_decide_eq_true. tauto.
Qed.

Lemma next_id_above t c : In c t -> (ID c < Gorm.next_id t)%N.
Proof.
  unfold Gorm.next_id. induction t as [|d t IH]; simpl; [tauto|].
  intros [->|Hc]; [lia|]. specialize (IH Hc). lia.
Qed.

Lemma next_id_fresh t : Gorm.has_id (Gorm.next_id t) t = false.
Proof.
  destruct (Gorm.has_id (Gorm.next_id t) t) eqn:H; [|reflexivity].
  apply has_id_true in H as (c & Hc & Hid). apply next_id_above in Hc. lia.
Qed.

Lemma next_id_nonzero t : Gorm.next_id t <> 0%N.
Proof. unfold Gorm.next_id. lia. Qed.

(** A successful insert appends one row, whose identifier is not zero and
    is borne by no row of the table before. *)
Lemma Create_success config d row d' :
  Gorm.Create config d = (row, None, d') ->
  Gorm.table d' = Gorm.table d ++ [row] /\
  ID row <> 0%N /\ Gorm.has_id (ID row) (Gorm.table d) = false /\
  row = with_ID (ID row) config.
Proof.
  unfold Gorm.Create. destruct (next_outcome _) as [[msg|] s]; [discriminate|].
  destruct (bool_decide (ID config = 0%N)) eqn:H0.
  - intros H; injection H as <- <-. simpl.
    split; [reflexivity|]. split; [apply next_id_nonzero|].
    split; [apply next_id_fresh | reflexivity].
  - apply bool_decide_eq_false in H0.
    destruct (Gorm.has_id (ID config) (Gorm.table d)) eqn:Hh; [discriminate|].
    intros H; injection H as <- <-. simpl.
    split; [reflexivity|]. split; [exact H0|]. split; [exact Hh|].
    now destruct config.
Qed.

Lemma lookup_id_snoc id t row :
  Gorm.has_id (ID row) t = false ->
  Gorm.lookup_id id (t ++ [row]) =
  if decide (id = ID row)
  then (if Gorm.live row then Some row else None)
  else Gorm.lookup_id id t.
Proof.
  intros Hfresh. unfold Gorm.lookup_id. rewrite filter_app.
  destruct (decide (id = ID row)) as [->|Hne].
  - rewrite (filter_none (Gorm.by_id (ID row)) t).
    + simpl. rewrite filter_cons, filter_nil.
      unfold Gorm.by_id. rewrite bool_decide_eq_true_2 by reflexivity.
      rewrite andb_true_r. destruct (Gorm.live row); reflexivity.
    + intros c Hc. destruct (Gorm.by_id (ID row) c) eqn:Hb; [|reflexivity].
      apply by_id_true in Hb as [_ Hid]. now apply (has_id_false _ _ Hfresh) in Hc.
  - rewrite filter_cons, filter_nil.
    destruct (decide (Gorm.by_id id row = true)) as [Hb|_].
    + apply by_id_true in Hb as [_ Hid]. congruence.
    + now rewrite app_nil_r.
Qed.

(** ** Create, then look up by identifier *)

(** X1. A configuration that has been created is found by the identifier
    the create wrote into it: when the query goes through,
    [GetConfigurationByID] returns exactly the created record.  The
    identifier is not zero, and the lookups of all other identifiers are
    as before the create. *)
Theorem create_then_get_by_id dao config config' dao1 :
  CreateConfiguration dao config = (config', None, dao1) ->
  DeletedAt config = None ->
  ID config' <> 0%N /\
  (first_outcome (Gorm.db_outcomes (db dao1)) = None ->
   fst (GetConfigurationByID dao1 (ID config') Models.zero) = (config', None)) /\
  (forall id, id <> ID config' ->
              Gorm.lookup_id id (Gorm.table (db dao1)) =
              Gorm.lookup_id id (Gorm.table (db dao))).
Proof.
  intros Hc Hlive. rewrite CreateConfiguration_cases in Hc.
  destruct (Gorm.Create config (db dao)) as [[row [e|]] d] eqn:Hcreate; [discriminate|].
  apply Create_success in Hcreate as (Ht & Hnz & Hfresh & Hrow).
  assert (Hd : db dao1 = d /\ config' = row).
  { destruct (redis dao); injection Hc as <- <-;
      [rewrite best_effort_db|]; auto. }
  destruct Hd as [Hd ->]. rewrite Hd, Ht.
  assert (Hl : Gorm.live row = true).
  { unfold Gorm.live. apply bool_decide_eq_true. rewrite Hrow. exact Hlive. }
  split; [exact Hnz|]. split.
  - intros Ho. rewrite GetConfigurationByID_cases, Hd, Ho, Ht.
    rewrite (lookup_id_snoc _ _ _ Hfresh), decide_True by reflexivity.
    now rewrite Hl.
  - intros id Hne. rewrite (lookup_id_snoc _ _ _ Hfresh).
    now rewrite decide_False.
Qed.

Lemma create_then_get_by_id_witness :
  fst (GetConfigurationByID (snd (CreateConfiguration dao_empty c30)) 1 Models.zero)
  = (row30, None).
Proof.
  refine (proj1 (proj2 (create_then_get_by_id dao_empty c30 row30
                          (snd (CreateConfiguration dao_empty c30))
                          eq_refl eq_refl)) eq_refl).
Defined.

(** ** The update path of the service *)

Lemma least_id_copies (c : Configuration) l :
  l <> [] -> Forall (fun x => x = c) l -> Gorm.least_id l = Some c.
Proof.
  induction l as [|x l IH]; intros Hne Hall; [congruence|].
  apply Forall_cons in Hall as [-> Hall]. simpl.
  destruct l as [|y l]; [reflexivity|].
  rewrite IH by (congruence || exact Hall).
  now rewrite N.leb_refl.
Qed.

Lemma lookup_id_replace config t :
  Gorm.has_id (ID config) t = true ->
  DeletedAt config = None ->
  Gorm.lookup_id (ID config) (Gorm.replace_id config t) = Some config.
Proof.
  intros Hhas Hlive. unfold Gorm.lookup_id. apply least_id_copies.
  - apply has_id_true in Hhas as (c & Hc & Hid).
    intros Hnil.
    assert (Hin : In config (filter (fun x => Gorm.by_id (ID config) x = true)
                                    (Gorm.replace_id config t))).
    { apply In_filter_bool. split.
      - unfold Gorm.replace_id. apply in_map_iff. exists c. split; [|exact Hc].
        now rewrite bool_decide_eq_true_2.
      - apply by_id_true. auto. }
    rewrite Hnil in Hin. exact Hin.
  - apply Forall_forall. intros x Hx. apply list_elem_of_In in Hx.
    apply In_filter_bool in Hx as [Hx Hb]. apply by_id_true in Hb as [_ Hid].
    unfold Gorm.replace_id in Hx. apply in_map_iff in Hx as (c & Hc & _).
    destruct (bool_decide (ID c = ID config)) eqn:Hd; [congruence|].
    apply bool_decide_eq_false in Hd. congruence.
Qed.

Lemma lookup_id_replace_ne id config t :
  id <> ID config ->
  Gorm.lookup_id id (Gorm.replace_id config t) = Gorm.lookup_id id t.
Proof.
  intros Hne. unfold Gorm.lookup_id. f_equal.
  induction t as [|c t IH]; [reflexivity|].
  unfold Gorm.replace_id in *. simpl map. rewrite !filter_cons, IH.
  destruct (bool_decide (ID c = ID config)) eqn:Hd; [|reflexivity].
  apply bool_decide_eq_true in Hd.
  destruct (decide (Gorm.by_id id config = true)) as [Hb|_].
  { apply by_id_true in Hb as [_ Hb]. congruence. }
  destruct (decide (Gorm.by_id id c = true)) as [Hb|_]; [|reflexivity].
  apply by_id_true in Hb as [_ Hb]. congruence.
Qed.

Lemma Save_existing config d :
  ID config <> 0%N ->
  Gorm.has_id (ID config) (Gorm.table d) = true ->
  Gorm.Save config d =
  match first_outcome (Gorm.db_outcomes d) with
  | Some msg =>
    (config, Some (DBError msg),
     Gorm.mkDB (Gorm.table d) (snd (next_outcome (Gorm.db_outcomes d))))
  | None =>
    (config, None,
     Gorm.mkDB (Gorm.replace_id config (Gorm.table d))
               (snd (next_outcome (Gorm.db_outcomes d))))
  end.
Proof.
  intros Hnz Hhas. unfold Gorm.Save, first_outcome.
  rewrite bool_decide_eq_false_2 by exact Hnz.
  destruct (next_outcome (Gorm.db_outcomes d)) as [[msg|] s]; simpl; [reflexivity|].
  now rewrite Hhas.
Qed.

Lemma update_fields now data row :
  with_UpdatedAt now
    (Services.update_field data "key" with_Key
       (Services.update_field data "namespace" with_Namespace
          (Services.update_field data "description" with_Description
             (Services.update_field data "value" with_Value row))))
  = merged now data row.
Proof.
  unfold Services.update_field, Services.as_string, merged, carried.
  destruct (data !! "value") as [[?| | |]|];
    destruct (data !! "description") as [[?| | |]|];
    destruct (data !! "namespace") as [[?| | |]|];
    destruct (data !! "key") as [[?| | |]|]; reflexivity.
Qed.

(** The update of the service, by the outcome of its two calls to the
    store. *)
Lemma service_update_cases now s id data :
  Services.UpdateConfiguration now s id data =
  let dao := Services.configDAO s in
  let d1 := Gorm.mkDB (Gorm.table (db dao))
                      (snd (next_outcome (Gorm.db_outcomes (db dao)))) in
  match first_outcome (Gorm.db_outcomes (db dao)),
        Gorm.lookup_id id (Gorm.table (db dao)) with
  | Some msg, _ =>
    (None, Some (DBError msg), Services.mkConfigService (set_db d1 dao))
  | None, None =>
    (None, Some (NotFoundError "configuration not found"),
     Services.mkConfigService (set_db d1 dao))
  | None, Some row =>
    let config := merged now data row in
    let '(config', err, dao2) := UpdateConfiguration now (set_db d1 dao) config in
    match err with
    | Some e =>
      (None, Some e,
       Services.mkConfigService
         (Services.Log ErrorLevel (Some e) [("id", pretty id)]
                       "Failed to update configuration" dao2))
    | None =>
      (Some config', None,
       Services.mkConfigService
         (Services.Log InfoLevel None [("id", pretty id)]
                       "Configuration updated successfully" dao2))
    end
  end.
Proof.
  unfold Services.UpdateConfiguration.
  rewrite GetConfigurationByID_cases. cbv zeta.
  destruct (first_outcome _) as [msg|]; [reflexivity|].
  destruct (Gorm.lookup_id _ _) as [row|]; [|reflexivity].
  cbv iota beta. rewrite update_fields. reflexivity.
Qed.

(** X2. [UpdateConfiguration] of the service, for an identifier other than
    zero.  When the lookup by identifier fails, no write is attempted: the
    result is the failure of the store, or [NotFoundError] when there is
    no live row with the identifier, and table, cache and log are as
    before.  When it finds a row, the fields the request carries as
    strings replace those of the row, every other field of the request is
    ignored, identifier and creation instant are kept and the update
    instant is set; the record is written over the row, after which the
    lookup by the identifier returns it and the lookups of all other
    identifiers are as before.  No check for another row with the same
    namespace and key is made. *)
Theorem service_update_by_outcome now s id data :
  id <> 0%N ->
  let dao := Services.configDAO s in
  let '(res, err, s') := Services.UpdateConfiguration now s id data in
  let dao' := Services.configDAO s' in
  match first_outcome (Gorm.db_outcomes (db dao)),
        Gorm.lookup_id id (Gorm.table (db dao)) with
  | Some msg, _ =>
    res = None /\ err = Some (DBError msg) /\
    Gorm.table (db dao') = Gorm.table (db dao) /\
    redis dao' = redis dao /\ log dao' = log dao
  | None, None =>
    res = None /\ err = Some (NotFoundError "configuration not found") /\
    Gorm.table (db dao') = Gorm.table (db dao) /\
    redis dao' = redis dao /\ log dao' = log dao
  | None, Some row =>
    match second_outcome (Gorm.db_outcomes (db dao)) with
    | Some msg =>
      res = None /\ err = Some (DBError msg) /\
      Gorm.table (db dao') = Gorm.table (db dao) /\ redis dao' = redis dao
    | None =>
      res = Some (merged now data row) /\ err = None /\
      Gorm.table (db dao') = Gorm.replace_id (merged now data row) (Gorm.table (db dao)) /\
      Gorm.lookup_id id (Gorm.table (db dao')) = Some (merged now data row) /\
      forall j, j <> id ->
                Gorm.lookup_id j (Gorm.table (db dao')) =
                Gorm.lookup_id j (Gorm.table (db dao))
    end
  end.
Proof.
  intros Hnz dao. rewrite service_update_cases. fold dao. cbv zeta.
  destruct (first_outcome (Gorm.db_outcomes (db dao))) as [msg|]; [simpl; auto|].
  destruct (Gorm.lookup_id id (Gorm.table (db dao))) as [row|] eqn:Hrow;
    [|simpl; auto].
  apply lookup_id_Some in Hrow as (Hin & Hid & Hlive).
  rewrite UpdateConfiguration_cases.
  assert (Hm : ID (merged now data row) = id) by exact Hid.
  assert (Hhas : Gorm.has_id (ID (merged now data row)) (Gorm.table (db dao)) = true).
  { apply has_id_true. exists row. rewrite Hm. auto. }
  simpl db.
  rewrite (Save_existing (merged now data row)
             (Gorm.mkDB (Gorm.table (db dao))
                        (snd (next_outcome (Gorm.db_outcomes (db dao)))))
             ltac:(rewrite Hm; exact Hnz) Hhas).
  unfold second_outcome, first_outcome. simpl Gorm.db_outcomes.
  destruct (fst (next_outcome (snd (next_outcome (Gorm.db_outcomes (db dao))))))
    as [msg|]; simpl.
  { auto. }
  assert (Hgoal :
    Gorm.lookup_id id (Gorm.replace_id (merged now data row) (Gorm.table (db dao)))
    = Some (merged now data row) /\
    forall j, j <> id ->
      Gorm.lookup_id j (Gorm.replace_id (merged now data row) (Gorm.table (db dao)))
      = Gorm.lookup_id j (Gorm.table (db dao))).
  { split.
    - rewrite <- Hm at 1. apply lookup_id_replace; [exact Hhas | exact Hlive].
    - intros j Hj. apply lookup_id_replace_ne. now rewrite Hm. }
  destruct (redis dao) as [r|]; simpl; [rewrite best_effort_db|]; simpl; auto.
Qed.

Lemma service_update_by_outcome_witness :
  fst (Services.UpdateConfiguration 200 (Services.mkConfigService (before_update []))
                                    1 body60)
  = (Some (mkConfiguration 1 "build" "timeout" "60" "" 0 200 None), None).
Proof.
  pose proof (service_update_by_outcome 200 (Services.mkConfigService (before_update []))
                                        1 body60 ltac:(discriminate)) as H.
  destruct (Services.UpdateConfiguration 200 (Services.mkConfigService (before_update []))
                                        1 body60) as [[res err] s'].
  vm_compute in H. destruct H as (-> & -> & _). reflexivity.
Defined.

(** The cache after a successful update of the data-access object. *)
Lemma UpdateConfiguration_cache now dao config config' dao1 r :
  UpdateConfiguration now dao config = (config', None, dao1) ->
  redis dao = Some r ->
  Namespace config' = Namespace config /\ Key config' = Key config /\
  Value config' = Value config /\
  exists r', redis dao1 = Some r' /\
    Redis.redis_outcomes r' = snd (next_outcome (Redis.redis_outcomes r)) /\
    (forall k, k <> cacheKey (Namespace config) (Key config) ->
               Redis.entries r' !! k = Redis.entries r !! k) /\
    (first_outcome (Redis.redis_outcomes r) = None ->
     Redis.entries r' !! cacheKey (Namespace config) (Key config) =
     Some (Value config, (now + 5 * Minute)%Z)).
Proof.
  intros Hu Hr. rewrite UpdateConfiguration_cases in Hu.
  pose proof (Save_keeps config (db dao)) as (Hn & Hk & Hv & _).
  destruct (Gorm.Save config (db dao)) as [[c [e|]] d]; [discriminate|].
  simpl in Hn, Hk, Hv. simpl in Hu. rewrite Hr in Hu. injection Hu as <- <-.
  split; [exact Hn|]. split; [exact Hk|]. split; [exact Hv|].
  unfold best_effort. destruct (first_outcome (Redis.redis_outcomes r)) as [m|].
  - eexists. split; [reflexivity|]. simpl. split; [reflexivity|].
    split; [reflexivity | discriminate].
  - eexists. split; [reflexivity|]. simpl. split; [reflexivity|]. split.
    + intros k Hk'. now rewrite lookup_insert_ne.
    + intros _. apply lookup_insert_eq.
Qed.

(** X3. The cache after a successful [UpdateConfiguration] of the service.
    The only entry written is the one under the composite key of the
    namespace and key the record has after the update; it receives the new
    value with an expiry five minutes ahead when the set goes through.
    Every other entry stays: after an update that renames a
    configuration, the entry under the key of its old pair is not
    invalidated, and a fetch of the old pair before the expiry of that
    entry is still served the old value by the cache. *)
Theorem service_update_writes_one_cache_entry now s id data config s' r :
  Services.UpdateConfiguration now s id data = (Some config, None, s') ->
  redis (Services.configDAO s) = Some r ->
  exists r', redis (Services.configDAO s') = Some r' /\
    (first_outcome (Redis.redis_outcomes r) = None ->
     Redis.entries r' !! cacheKey (Namespace config) (Key config) =
     Some (Value config, (now + 5 * Minute)%Z)) /\
    (forall k, k <> cacheKey (Namespace config) (Key config) ->
               Redis.entries r' !! k = Redis.entries r !! k) /\
    (forall namespace key v expiry t,
        cacheKey namespace key <> cacheKey (Namespace config) (Key config) ->
        Redis.entries r !! cacheKey namespace key = Some (v, expiry) ->
        (t < expiry)%Z ->
        first_outcome (Redis.redis_outcomes r') = None ->
        fst (GetConfiguration t (Services.configDAO s') namespace key) =
        (Some (mkConfiguration 0 namespace key v "" 0 0 None), None)).
Proof.
  intros Hu Hr. rewrite service_update_cases in Hu. cbv zeta in Hu.
  destruct (first_outcome _) as [msg|]; [discriminate|].
  destruct (Gorm.lookup_id _ _) as [row|]; [|discriminate].
  destruct (UpdateConfiguration now _ (merged now data row))
    as [[config' [e|]] dao2] eqn:Hd; [discriminate|].
  injection Hu as -> <-.
  destruct (UpdateConfiguration_cache _ _ _ _ _ r Hd Hr)
    as (Hn & Hk & Hv & r' & Hr' & Ho & Hframe & Hset).
  rewrite <- Hn, <- Hk, <- Hv in *.
  exists r'. split; [exact Hr'|]. split; [exact Hset|]. split; [exact Hframe|].
  intros namespace key v expiry t Hne Hl Ht Hcall.
  erewrite GetConfiguration_hit; [reflexivity | exact Hr' |].
  apply Redis_Get_hit. split; [exact Hcall|]. split; [|reflexivity].
  unfold Redis.held. rewrite (Hframe _ Hne), Hl.
  now rewrite bool_decide_eq_true_2.
Qed.

Lemma service_update_writes_one_cache_entry_witness :
  let s' := snd (Services.UpdateConfiguration
                   200 (Services.mkConfigService (before_update [])) 1 body_rename) in
  Gorm.lookup_key "build" "timeout" (Gorm.table (db (Services.configDAO s'))) = None /\
  fst (GetConfiguration 300 (Services.configDAO s') "build" "timeout") =
  (Some (mkConfiguration 0 "build" "timeout" "30" "" 0 0 None), None).
Proof.
  split; [reflexivity|].
  destruct (service_update_writes_one_cache_entry
              200 (Services.mkConfigService (before_update [])) 1 body_rename
              (mkConfiguration 1 "build" "retries" "30" "" 0 200 None)
              (snd (Services.UpdateConfiguration
                      200 (Services.mkConfigService (before_update [])) 1 body_rename))
              (Redis.mkClient {[ "config:build:timeout" := ("30", 300000000100%Z) ]} [])
              eq_refl eq_refl) as (r' & Hr' & _ & _ & H).
  apply (H "build" "timeout" "30" 300000000100%Z 300%Z);
    [discriminate | reflexivity | reflexivity |].
  vm_compute in Hr'. injection Hr' as <-. reflexivity.
Defined.

(** ** The delete path of the service *)

(** X4. [DeleteConfiguration] of the service.  When the lookup by
    identifier fails, nothing is deleted: the result is the failure of the
    store, or [NotFoundError] when there is no live row with the
    identifier, and table, cache and log are as before.  Otherwise the row
    is looked up a second time and soft-deleted; a failure of either call
    is returned with table and cache as before.  When both go through the
    row has its tombstone and is no longer found by its identifier, and
    the cache entry under its composite key is deleted unless that call to
    the cache fails, which the result does not show. *)
Theorem service_delete_by_outcome now s id :
  let dao := Services.configDAO s in
  let '(err, s') := Services.DeleteConfiguration now s id in
  let dao' := Services.configDAO s' in
  let untouched :=
      Gorm.table (db dao') = Gorm.table (db dao) /\ redis dao' = redis dao in
  match first_outcome (Gorm.db_outcomes (db dao)),
        Gorm.lookup_id id (Gorm.table (db dao)) with
  | Some msg, _ => err = Some (DBError msg) /\ untouched /\ log dao' = log dao
  | None, None =>
    err = Some (NotFoundError "configuration not found") /\ untouched /\
    log dao' = log dao
  | None, Some row =>
    match second_outcome (Gorm.db_outcomes (db dao)),
          third_outcome (Gorm.db_outcomes (db dao)) with
    | Some msg, _ => err = Some (DBError msg) /\ untouched
    | None, Some msg => err = Some (DBError msg) /\ untouched
    | None, None =>
      err = None /\
      Gorm.table (db dao') = Gorm.tombstone now id (Gorm.table (db dao)) /\
      Gorm.lookup_id id (Gorm.table (db dao')) = None /\
      match redis dao with
      | None => redis dao' = None
      | Some r =>
        exists r', redis dao' = Some r' /\
        Redis.entries r' =
        match first_outcome (Redis.redis_outcomes r) with
        | None => delete (cacheKey (Namespace row) (Key row)) (Redis.entries r)
        | Some _ => Redis.entries r
        end
      end
    end
  end.
Proof.
  intros dao. unfold Services.DeleteConfiguration.
  rewrite GetConfigurationByID_cases. fold dao. cbv zeta.
  destruct (first_outcome (Gorm.db_outcomes (db dao))) as [msg|]; [simpl; auto|].
  destruct (Gorm.lookup_id id (Gorm.table (db dao))) as [row|] eqn:Hrow;
    [|simpl; auto].
  cbv iota beta. rewrite DeleteConfiguration_cases. simpl db.
  rewrite First_id_cases. simpl Gorm.table. simpl Gorm.db_outcomes. rewrite Hrow.
  unfold second_outcome, third_outcome, first_outcome at 1.
  destruct (fst (next_outcome (snd (next_outcome (Gorm.db_outcomes (db dao))))))
    as [msg|]; [simpl; auto|].
  cbv iota beta zeta. unfold Gorm.Delete. simpl Gorm.db_outcomes.
  destruct (next_outcome (snd (next_outcome (snd (next_outcome
              (Gorm.db_outcomes (db dao))))))) as [[msg|] rest]; simpl; [auto|].
  apply lookup_id_Some in Hrow as (_ & Hid & _). rewrite Hid.
  destruct (redis dao) as [r|] eqn:Hr; simpl.
  - rewrite best_effort_db. simpl.
    split; [reflexivity|]. split; [reflexivity|].
    split; [apply lookup_id_tombstone|].
    unfold best_effort. destruct (first_outcome (Redis.redis_outcomes r));
      eexists; split; reflexivity.
  - split; [reflexivity|]. split; [reflexivity|].
    split; [apply lookup_id_tombstone | exact Hr].
Qed.

(** X5. A delete is final for the service: after a successful
    [DeleteConfiguration], every further delete and every update of the
    same identifier whose lookup goes through reports [NotFoundError], and
    writes nothing. *)
Theorem service_delete_is_final now s id s' :
  Services.DeleteConfiguration now s id = (None, s') ->
  first_outcome (Gorm.db_outcomes (db (Services.configDAO s'))) = None ->
  forall now' data,
    (let '(err, s'') := Services.DeleteConfiguration now' s' id in
     err = Some (NotFoundError "configuration not found") /\
     Gorm.table (db (Services.configDAO s'')) = Gorm.table (db (Services.configDAO s'))) /\
    (let '(res, err, s'') := Services.UpdateConfiguration now' s' id data in
     res = None /\ err = Some (NotFoundError "configuration not found") /\
     Gorm.table (db (Services.configDAO s'')) = Gorm.table (db (Services.configDAO s'))).
Proof.
  intros Hd Ho now' data.
  assert (Hgone : Gorm.lookup_id id (Gorm.table (db (Services.configDAO s'))) = None).
  { pose proof (service_delete_by_outcome now s id) as H. cbv zeta in H.
    rewrite Hd in H.
    destruct (first_outcome (Gorm.db_outcomes (db (Services.configDAO s))))
      as [msg|]; [destruct H; discriminate|].
    destruct (Gorm.lookup_id id (Gorm.table (db (Services.configDAO s))));
      [|destruct H; discriminate].
    destruct (second_outcome (Gorm.db_outcomes (db (Services.configDAO s))));
      [destruct H; discriminate|].
    destruct (third_outcome (Gorm.db_outcomes (db (Services.configDAO s))));
      [destruct H; discriminate|].
    now destruct H as (_ & _ & H & _). }
  split.
  - pose proof (service_delete_by_outcome now' s' id) as H. cbv zeta in H.
    destruct (Services.DeleteConfiguration now' s' id) as [err s''].
    rewrite Ho, Hgone in H. destruct H as (-> & (Ht & _) & _). auto.
  - rewrite service_update_cases. cbv zeta. rewrite Ho, Hgone. auto.
Qed.

Lemma service_delete_is_final_witness :
  let s' := snd (Services.DeleteConfiguration
                   5 (Services.mkConfigService (before_update [])) 1) in
  fst (Services.DeleteConfiguration 6 s' 1) =
  Some (NotFoundError "configuration not found").
Proof.
  pose proof (service_delete_is_final
                5 (Services.mkConfigService (before_update [])) 1
                (snd (Services.DeleteConfiguration
                        5 (Services.mkConfigService (before_update [])) 1))
                eq_refl eq_refl 6%Z ∅) as [H _].
  cbv zeta.
  destruct (Services.DeleteConfiguration 6 _ 1) as [err s''].
  now destruct H as [-> _].
Defined.

(** ** Delete, then fetch *)

Lemma lookup_key_tombstone now id namespace key t :
  (forall c, In c t -> DeletedAt c = None ->
             Namespace c = namespace -> Key c = key -> ID c = id) ->
  Gorm.lookup_key namespace key (Gorm.tombstone now id t) = None.
Proof.
  intros Huniq. unfold Gorm.lookup_key. apply least_id_None. apply filter_none.
  intros x Hx. unfold Gorm.tombstone in Hx. apply in_map_iff in Hx as (c & <- & Hc).
  destruct (Gorm.by_id id c) eqn:Hb.
  - unfold Gorm.by_key, Gorm.live. simpl. reflexivity.
  - destruct (Gorm.by_key namespace key c) eqn:Hk; [|reflexivity].
    apply by_key_true in Hk as (Hl & Hn & Hk).
    assert (Gorm.by_id id c = true) by (apply by_id_true; eauto). congruence.
Qed.

(** The state after a successful delete of the data-access object. *)
Lemma DeleteConfiguration_success now dao id dao1 row :
  DeleteConfiguration now dao id = (None, dao1) ->
  Gorm.lookup_id id (Gorm.table (db dao)) = Some row ->
  Gorm.table (db dao1) = Gorm.tombstone now id (Gorm.table (db dao)) /\
  match redis dao with
  | None => redis dao1 = None
  | Some r =>
    redis dao1 =
    Some (Redis.mkClient
            match first_outcome (Redis.redis_outcomes r) with
            | None => delete (cacheKey (Namespace row) (Key row)) (Redis.entries r)
            | Some _ => Redis.entries r
            end
            (snd (next_outcome (Redis.redis_outcomes r))))
  end.
Proof.
  intros Hd Hrow. rewrite DeleteConfiguration_cases, First_id_cases in Hd.
  cbv zeta in Hd. rewrite Hrow in Hd.
  destruct (first_outcome (Gorm.db_outcomes (db dao))); [discriminate|].
  unfold Gorm.Delete in Hd. simpl in Hd.
  destruct (next_outcome (snd (next_outcome (Gorm.db_outcomes (db dao)))))
    as [[msg|] rest]; [discriminate|].
  apply lookup_id_Some in Hrow as (_ & Hid & _). rewrite Hid in Hd.
  destruct (redis dao) as [r|] eqn:Hr; injection Hd as <-.
  - rewrite best_effort_db. split; [reflexivity|].
    unfold best_effort. destruct (first_outcome (Redis.redis_outcomes r)); reflexivity.
  - split; [reflexivity | exact Hr].
Qed.

(** X6. Fetch after delete.  Let [DeleteConfiguration] succeed on a row
    that is the only live row of its namespace and key.  When the
    invalidation of the cache went through, or there is no cache, every
    later fetch of the pair whose query goes through is not found.  When
    the invalidation failed, an entry the cache held for the pair is still
    served, until its expiry, to every fetch whose cache get goes
    through: the deleted value outlives the row. *)
Theorem delete_then_fetch now dao id dao1 row :
  DeleteConfiguration now dao id = (None, dao1) ->
  Gorm.lookup_id id (Gorm.table (db dao)) = Some row ->
  (forall c, In c (Gorm.table (db dao)) -> DeletedAt c = None ->
             Namespace c = Namespace row -> Key c = Key row -> ID c = id) ->
  let gone :=
      forall t, first_outcome (Gorm.db_outcomes (db dao1)) = None ->
                fst (GetConfiguration t dao1 (Namespace row) (Key row)) =
                (None, Some ErrRecordNotFound) in
  match redis dao with
  | None => gone
  | Some r =>
    match first_outcome (Redis.redis_outcomes r) with
    | None => gone
    | Some _ =>
      forall v expiry t,
        Redis.entries r !! cacheKey (Namespace row) (Key row) = Some (v, expiry) ->
        (t < expiry)%Z ->
        second_outcome (Redis.redis_outcomes r) = None ->
        fst (GetConfiguration t dao1 (Namespace row) (Key row)) =
        (Some (mkConfiguration 0 (Namespace row) (Key row) v "" 0 0 None), None)
    end
  end.
Proof.
  intros Hd Hrow Huniq gone.
  destruct (DeleteConfiguration_success _ _ _ _ _ Hd Hrow) as [Ht Hc].
  assert (Hstore : forall t,
             match redis dao1 with
             | Some r1 => Redis.held t (cacheKey (Namespace row) (Key row))
                                     (Redis.entries r1) = None
             | None => True
             end ->
             first_outcome (Gorm.db_outcomes (db dao1)) = None ->
             fst (GetConfiguration t dao1 (Namespace row) (Key row)) =
             (None, Some ErrRecordNotFound)).
  { intros t Habs Ho. rewrite (GetConfiguration_absent _ _ _ _ Habs).
    rewrite store_answer_cases. unfold first_outcome in Ho. rewrite Ho, Ht.
    now rewrite (lookup_key_tombstone _ _ _ _ _ Huniq). }
  destruct (redis dao) as [r|].
  - destruct (first_outcome (Redis.redis_outcomes r)) as [msg|] eqn:Hdel.
    + intros v expiry t Hl Hlt Hcall.
      erewrite GetConfiguration_hit; [reflexivity | exact Hc |].
      apply Redis_Get_hit. simpl. split; [exact Hcall|]. split; [|reflexivity].
      unfold Redis.held. rewrite Hl. now rewrite bool_decide_eq_true_2.
    + intros t Ho. apply Hstore; [|exact Ho]. rewrite Hc. simpl. apply held_delete.
  - intros t Ho. apply Hstore; [|exact Ho]. now rewrite Hc.
Qed.

Lemma delete_then_fetch_witness :
  fst (GetConfiguration 300 (snd (DeleteConfiguration 200 (before_update []) 1))
                        "build" "timeout") = (None, Some ErrRecordNotFound) /\
  fst (GetConfiguration 300
         (snd (DeleteConfiguration 200
                 (before_update [None; None; None; Some "i/o timeout"]) 1))
         "build" "timeout") =
  (Some (mkConfiguration 0 "build" "timeout" "30" "" 0 0 None), None).
Proof.
  split.
  - refine (delete_then_fetch 200 (before_update []) 1
              (snd (DeleteConfiguration 200 (before_update []) 1)) row30
              eq_refl eq_refl _ 300%Z eq_refl).
    intros c [<-|[]] _ _ _. reflexivity.
  - refine (delete_then_fetch 200 (before_update [None; None; None; Some "i/o timeout"]) 1
              (snd (DeleteConfiguration 200
                      (before_update [None; None; None; Some "i/o timeout"]) 1))
              row30 eq_refl eq_refl _ "30" 300000000100%Z 300%Z eq_refl _ eq_refl).
    + intros c [<-|[]] _ _ _. reflexivity.
    + reflexivity.
Defined.

(** ** Expiry *)

Lemma held_expired now key m v expiry :
  m !! key = Some (v, expiry) -> (expiry <= now)%Z -> Redis.held now key m = None.
Proof.
  intros Hl Hle. unfold Redis.held. rewrite Hl.
  rewrite bool_decide_eq_false_2; [reflexivity | lia].
Qed.

(** X7. The bound on staleness.  When a fetch at instant [T] is answered
    by the store and its set goes through, the cache holds the value of
    the row until [T] plus five minutes.  Before that instant a fetch of
    the pair whose cache get goes through is served that value by the
    cache, without any call to the store, whatever the store holds by
    then; from that instant on every fetch is answered by the store. *)
Theorem fetched_value_is_cached_for_five_minutes T dao r namespace key row dao1 :
  redis dao = Some r ->
  Redis.held T (cacheKey namespace key) (Redis.entries r) = None ->
  second_outcome (Redis.redis_outcomes r) = None ->
  GetConfiguration T dao namespace key = (Some row, None, dao1) ->
  exists r1,
    redis dao1 = Some r1 /\
    Redis.entries r1 !! cacheKey namespace key = Some (Value row, (T + 5 * Minute)%Z) /\
    forall dao2 t,
      redis dao2 = Some r1 ->
      ((t < T + 5 * Minute)%Z ->
       first_outcome (Redis.redis_outcomes r1) = None ->
       fst (GetConfiguration t dao2 namespace key) =
       (Some (mkConfiguration 0 namespace key (Value row) "" 0 0 None), None) /\
       db (snd (GetConfiguration t dao2 namespace key)) = db dao2) /\
      ((T + 5 * Minute <= t)%Z ->
       fst (GetConfiguration t dao2 namespace key) = store_answer dao2 namespace key).
Proof.
  intros Hr Habs Hset Hget.
  destruct (Redis.Get T (cacheKey namespace key) r) as [[cached [e|]] r0] eqn:Hg.
  2:{ apply Redis_Get_hit in Hg as (_ & Hheld & _). congruence. }
  rewrite (GetConfiguration_fall_through _ _ _ _ _ _ _ _ Hr Hg) in Hget.
  apply Redis_Get_miss in Hg as [-> _].
  set (dao0 := warn_get e _ _) in Hget.
  assert (Hr0 : redis dao0 =
                Some (Redis.mkClient (Redis.entries r)
                                     (snd (next_outcome (Redis.redis_outcomes r)))))
    by (unfold dao0, warn_get; destruct (bool_decide _); reflexivity).
  pose proof (read_store_cache T dao0 _ namespace key Hr0) as (r1 & Hr1 & Hc).
  rewrite Hget in Hr1, Hc. simpl in Hr1, Hc. destruct Hc as [_ Hc].
  unfold second_outcome in Hset. rewrite Hset in Hc. destruct Hc as [He _].
  exists r1. split; [exact Hr1|].
  assert (Hl : Redis.entries r1 !! cacheKey namespace key =
               Some (Value row, (T + 5 * Minute)%Z))
    by (rewrite He; apply lookup_insert_eq).
  split; [exact Hl|]. intros dao2 t Hr2. split.
  - intros Hlt Hcall.
    erewrite GetConfiguration_hit; [split; reflexivity | exact Hr2 |].
    apply Redis_Get_hit. split; [exact Hcall|]. split; [|reflexivity].
    unfold Redis.held. rewrite Hl. now rewrite bool_decide_eq_true_2.
  - intros Hle. apply GetConfiguration_absent. rewrite Hr2.
    eapply held_expired; [exact Hl | exact Hle].
Qed.

Lemma fetched_value_is_cached_for_five_minutes_witness :
  let dao1 := snd (GetConfiguration 7 (dao_stored []) "build" "timeout") in
  let emptied := set_db (Gorm.mkDB [] []) dao1 in
  fst (GetConfiguration 300000000006 emptied "build" "timeout") =
    (Some (mkConfiguration 0 "build" "timeout" "30" "" 0 0 None), None) /\
  fst (GetConfiguration 300000000007 emptied "build" "timeout") =
    (None, Some ErrRecordNotFound).
Proof.
  intros dao1 emptied.
  destruct (fetched_value_is_cached_for_five_minutes
              7 (dao_stored []) (Redis.mkClient ∅ []) "build" "timeout" row30 dao1
              eq_refl eq_refl eq_refl eq_refl) as (r1 & Hr1 & _ & H).
  vm_compute in Hr1. injection Hr1 as <-.
  split.
  - apply (H emptied 300000000006%Z eq_refl); reflexivity.
  - rewrite (proj2 (H emptied 300000000007%Z eq_refl)); [reflexivity|].
    unfold Minute. lia.
Defined.

(** ** What an operation leaves alone *)

Lemma best_effort_redis r after k msg dao :
  exists r', redis (best_effort r after k msg dao) = Some r' /\
             (Redis.entries r' = after \/ Redis.entries r' = Redis.entries r).
Proof.
  unfold best_effort. destruct (first_outcome _); eexists; split;
    try reflexivity; simpl; auto.
Qed.

Lemma others_kept_same dao k0 dao' : redis dao' = redis dao -> others_kept dao k0 dao'.
Proof. unfold others_kept. intros ->. destruct (redis dao); auto. Qed.

Lemma others_kept_best_effort dao r after k0 msg dao0 :
  redis dao = Some r ->
  (forall k, k <> k0 -> after !! k = Redis.entries r !! k) ->
  others_kept dao k0 (best_effort r after k0 msg dao0).
Proof.
  intros Hr Hafter. unfold others_kept. rewrite Hr.
  destruct (best_effort_redis r after k0 msg dao0) as (r' & -> & [-> | ->]); auto.
Qed.

Lemma others_kept_read_store dao now dao0 namespace key :
  match redis dao, redis dao0 with
  | None, None => True
  | Some r, Some r0 => Redis.entries r0 = Redis.entries r
  | _, _ => False
  end ->
  others_kept dao (cacheKey namespace key) (snd (read_store now dao0 namespace key)).
Proof.
  unfold others_kept. intros H.
  destruct (redis dao) as [r|]; destruct (redis dao0) as [r0|] eqn:Hr0; try tauto.
  - pose proof (read_store_cache now dao0 r0 namespace key Hr0) as (r' & -> & Hc).
    intros k Hk. rewrite <- H.
    destruct (fst (fst (read_store now dao0 namespace key))).
    + destruct Hc as [_ Hc].
      destruct (fst (next_outcome (Redis.redis_outcomes r0)));
        destruct Hc as [-> _]; [reflexivity | now rewrite lookup_insert_ne].
    + now destruct Hc as [-> _].
  - now rewrite (proj1 (read_store_nil now dao0 namespace key Hr0)).
Qed.

(** X8. No operation of the data-access object touches a cache entry other
    than the one under the composite key it computes: a fetch that of its
    arguments, a create and an update that of the record, a delete that of
    the row it looked up.  A fetch, moreover, leaves the table as it is,
    and no operation configures or removes the cache client. *)
Theorem operations_touch_one_cache_entry now dao :
  (forall namespace key,
      let dao' := snd (GetConfiguration now dao namespace key) in
      Gorm.table (db dao') = Gorm.table (db dao) /\
      others_kept dao (cacheKey namespace key) dao') /\
  (forall config,
      others_kept dao (cacheKey (Namespace config) (Key config))
                  (snd (CreateConfiguration dao config))) /\
  (forall config,
      others_kept dao (cacheKey (Namespace config) (Key config))
                  (snd (UpdateConfiguration now dao config))) /\
  (forall id,
      let dao' := snd (DeleteConfiguration now dao id) in
      match Gorm.lookup_id id (Gorm.table (db dao)) with
      | Some row => others_kept dao (cacheKey (Namespace row) (Key row)) dao'
      | None => redis dao' = redis dao
      end).
Proof.
  split; [|split; [|split]].
  - intros namespace key dao'. unfold dao'.
    destruct (redis dao) as [r|] eqn:Hr.
    + destruct (Redis.Get now (cacheKey namespace key) r) as [[cached [e|]] r1] eqn:Hg.
      * rewrite (GetConfiguration_fall_through _ _ _ _ _ _ _ _ Hr Hg).
        apply Redis_Get_miss in Hg as [-> _].
        split; [now rewrite read_store_table, warn_get_db|].
        apply others_kept_read_store. rewrite Hr.
        unfold warn_get. destruct (bool_decide _); reflexivity.
      * rewrite (GetConfiguration_hit _ _ _ _ _ _ _ Hr Hg).
        apply Redis_Get_hit in Hg as (_ & _ & ->).
        split; [reflexivity|]. unfold others_kept. rewrite Hr. simpl. auto.
    + rewrite (GetConfiguration_nil _ _ _ _ Hr).
      split; [apply read_store_table|].
      apply others_kept_read_store. now rewrite Hr.
  - intros config. rewrite CreateConfiguration_cases.
    destruct (Gorm.Create config (db dao)) as [[c [e|]] d]; simpl.
    { now apply others_kept_same. }
    destruct (redis dao) as [r|] eqn:Hr; simpl.
    + apply others_kept_best_effort; [exact Hr|].
      intros k Hk. now rewrite lookup_delete_ne.
    + now apply others_kept_same.
  - intros config. rewrite UpdateConfiguration_cases.
    destruct (Gorm.Save config (db dao)) as [[c [e|]] d]; simpl.
    { now apply others_kept_same. }
    destruct (redis dao) as [r|] eqn:Hr; simpl.
    + apply others_kept_best_effort; [exact Hr|].
      intros k Hk. now rewrite lookup_insert_ne.
    + now apply others_kept_same.
  - intros id dao'. unfold dao'. rewrite DeleteConfiguration_cases, First_id_cases.
    cbv zeta.
    destruct (first_outcome (Gorm.db_outcomes (db dao))) as [msg|].
    { simpl. destruct (Gorm.lookup_id _ _); [now apply others_kept_same | reflexivity]. }
    destruct (Gorm.lookup_id id (Gorm.table (db dao))) as [row|]; simpl; [|reflexivity].
    unfold Gorm.Delete. simpl.
    destruct (next_outcome (snd (next_outcome (Gorm.db_outcomes (db dao)))))
      as [[msg|] rest]; simpl.
    { now apply others_kept_same. }
    destruct (redis dao) as [r|] eqn:Hr; simpl.
    + apply others_kept_best_effort; [exact Hr|].
      intros k Hk. now rewrite lookup_delete_ne.
    + now apply others_kept_same.
Qed.

(** ** Listings *)

#[local] Instance by_key_asc_total : Total Gorm.by_key_asc.
Proof. intros c d. unfold Gorm.by_key_asc. apply String.le_total. Qed.

#[local] Instance by_created_at_desc_total : Total Gorm.by_created_at_desc.
Proof. intros c d. unfold Gorm.by_created_at_desc. lia. Qed.

Lemma selected_In cond t c :
  In c (Gorm.selected cond t) <-> In c t /\ DeletedAt c = None /\ cond c = true.
Proof.
  unfold Gorm.selected. rewrite <- !list_elem_of_In, list_elem_of_filter.
  unfold Gorm.live. rewrite andb_true_iff, bool_decide_eq_true. tauto.
Qed.

(** X9. [GetNamespaceConfigurations] of the service.  An empty namespace
    is refused before any call to the store.  Otherwise the result is what
    the one query on the store gives: its failure, or the live rows of the
    namespace, each as often as the table holds it, in ascending order of
    their keys.  Soft-deleted rows are never listed, the table is left as
    it is, and the cache is neither read nor written. *)
Theorem namespace_listing s namespace :
  let dao := Services.configDAO s in
  let '(configs, err, s') := Services.GetNamespaceConfigurations s namespace in
  let dao' := Services.configDAO s' in
  if bool_decide (namespace = "") then
    configs = [] /\ err = Some (ValidationError "namespace" "namespace is required") /\
    s' = s
  else
    Gorm.table (db dao') = Gorm.table (db dao) /\ redis dao' = redis dao /\
    match first_outcome (Gorm.db_outcomes (db dao)) with
    | Some msg => configs = [] /\ err = Some (DBError msg)
    | None =>
      err = None /\
      configs ≡ₚ filter (fun c => DeletedAt c = None /\ Namespace c = namespace)
                        (Gorm.table (db dao)) /\
      (forall c, In c configs <->
                 In c (Gorm.table (db dao)) /\ DeletedAt c = None /\
                 Namespace c = namespace) /\
      Sorted (fun c d => String.le (Key c) (Key d)) configs
    end.
Proof.
  intros dao. unfold Services.GetNamespaceConfigurations.
  destruct (bool_decide (namespace = "")); [auto|].
  unfold GetNamespaceConfigurations, Gorm.Find_by_key, first_outcome. fold dao.
  destruct (next_outcome (Gorm.db_outcomes (db dao))) as [[msg|] rest]; simpl.
  { auto. }
  split; [reflexivity|]. split; [reflexivity|]. split; [reflexivity|].
  set (cond := fun c : Configuration => bool_decide (Namespace c = namespace)).
  assert (Hperm : merge_sort Gorm.by_key_asc (Gorm.selected cond (Gorm.table (db dao)))
                  ≡ₚ filter (fun c => DeletedAt c = None /\ Namespace c = namespace)
                            (Gorm.table (db dao))).
  { rewrite merge_sort_Permutation. unfold Gorm.selected.
    erewrite list_filter_iff; [reflexivity|].
    intros c. unfold Gorm.live, cond.
    rewrite andb_true_iff, !bool_decide_eq_true. tauto. }
  split; [exact Hperm|]. split.
  - intros c. rewrite <- !list_elem_of_In, Hperm, list_elem_of_filter. tauto.
  - apply (Sorted_merge_sort Gorm.by_key_asc).
Qed.

Lemma int64_small z : (- 2 ^ 63 <= z < 2 ^ 63)%Z -> int64 z = z.
Proof.
  intros H. unfold int64. rewrite Z.mod_small; lia.
Qed.

Lemma dao_listing_cases LIKE dao page pageSize search :
  GetConfigurations LIKE dao page pageSize search =
  let s1 := snd (next_outcome (Gorm.db_outcomes (db dao))) in
  let s2 := snd (next_outcome s1) in
  match first_outcome (Gorm.db_outcomes (db dao)) with
  | Some msg =>
    ([], 0%Z, Some (DBError msg), set_db (Gorm.mkDB (Gorm.table (db dao)) s1) dao)
  | None =>
    match second_outcome (Gorm.db_outcomes (db dao)) with
    | Some msg =>
      ([], 0%Z, Some (DBError msg), set_db (Gorm.mkDB (Gorm.table (db dao)) s2) dao)
    | None =>
      (Gorm.window (int64 (int64 (page - 1) * pageSize)) pageSize
                   (listing LIKE search (Gorm.table (db dao))),
       Z.of_nat (length (Gorm.selected (matches LIKE search) (Gorm.table (db dao)))),
       None, set_db (Gorm.mkDB (Gorm.table (db dao)) s2) dao)
    end
  end.
Proof.
  unfold GetConfigurations, listing, matches, Gorm.Count, Gorm.Find_page,
    first_outcome, second_outcome.
  destruct (bool_decide (search <> ""));
    destruct (next_outcome (Gorm.db_outcomes (db dao))) as [[m1|] s1]; simpl;
      try reflexivity;
      destruct (next_outcome s1) as [[m2|] s2]; reflexivity.
Qed.

(** X10. A failed query makes [GetConfigurations] of the service return
    the failure and no listing; a failed count stops it before the query
    for the page.  In every case the table is left as it is and the cache
    is neither read nor written. *)
Theorem listing_failures LIKE s page pageSize search :
  let dao := Services.configDAO s in
  let '(res, err, s') := Services.GetConfigurations LIKE s page pageSize search in
  let dao' := Services.configDAO s' in
  Gorm.table (db dao') = Gorm.table (db dao) /\ redis dao' = redis dao /\
  match first_outcome (Gorm.db_outcomes (db dao)) with
  | Some msg =>
    res = None /\ err = Some (DBError msg) /\
    Gorm.db_outcomes (db dao') = snd (next_outcome (Gorm.db_outcomes (db dao)))
  | None =>
    match second_outcome (Gorm.db_outcomes (db dao)) with
    | Some msg => res = None /\ err = Some (DBError msg)
    | None => err = None /\ exists l, res = Some l
    end
  end.
Proof.
  intros dao. unfold Services.GetConfigurations. rewrite dao_listing_cases.
  fold dao. cbv zeta.
  destruct (first_outcome (Gorm.db_outcomes (db dao))); [simpl; auto|].
  destruct (second_outcome (Gorm.db_outcomes (db dao))); simpl; eauto 6.
Qed.

Lemma window_take_drop offset limit rows :
  (0 <= offset)%Z -> (0 <= limit)%Z ->
  Gorm.window offset limit rows =
  take (Z.to_nat limit) (drop (Z.to_nat offset) rows).
Proof.
  intros Ho Hl. unfold Gorm.window.
  destruct (0 <? offset)%Z eqn:H0.
  - now rewrite (proj2 (Z.leb_le 0 limit) Hl).
  - apply Z.ltb_ge in H0. assert (offset = 0%Z) as -> by lia.
    now rewrite (proj2 (Z.leb_le 0 limit) Hl).
Qed.

Lemma listing_Permutation LIKE search t :
  listing LIKE search t ≡ₚ
  filter (fun c => DeletedAt c = None /\ matches LIKE search c = true) t.
Proof.
  unfold listing. rewrite merge_sort_Permutation. unfold Gorm.selected.
  erewrite list_filter_iff; [reflexivity|].
  intros c. unfold Gorm.live. rewrite andb_true_iff, bool_decide_eq_true. tauto.
Qed.

Lemma listing_length LIKE search t :
  length (listing LIKE search t) = length (Gorm.selected (matches LIKE search) t).
Proof. unfold listing. now rewrite merge_sort_Permutation. Qed.

Lemma selected_length cond t : length (Gorm.selected cond t) <= length t.
Proof. unfold Gorm.selected. apply length_filter. Qed.

Lemma take_drop_nil {A} (n o : nat) (l : list A) :
  0 < n -> (take n (drop o l) = [] <-> length l <= o).
Proof.
  intros Hn. split.
  - intros H. apply (f_equal length) in H.
    rewrite length_take, length_drop in H. simpl in H. lia.
  - intros H. rewrite drop_ge by exact H. now rewrite take_nil.
Qed.

(** X11. The pages of [GetConfigurations] of the service, when both
    queries go through and the numbers stay far from the ends of the
    64-bit range.  A page number below one counts as one, a page size
    outside 1..100 as 20.  The listing is made of the live rows that
    match the search, the newest first; [total] is their number, the page
    is the slice of the listing that starts after [(page - 1) * page_size]
    rows and has at most [page_size] rows, and [total_pages] is the least
    number of pages that holds them all, so that the page is empty exactly
    when its number exceeds [total_pages]. *)
Theorem listing_pages LIKE s page pageSize search :
  let dao := Services.configDAO s in
  first_outcome (Gorm.db_outcomes (db dao)) = None ->
  second_outcome (Gorm.db_outcomes (db dao)) = None ->
  (page < 2 ^ 56)%Z ->
  (Z.of_nat (length (Gorm.table (db dao))) < 2 ^ 62)%Z ->
  let p := Z.max 1 page in
  let ps := if bool_decide (1 <= pageSize <= 100)%Z then pageSize else 20%Z in
  let all := listing LIKE search (Gorm.table (db dao)) in
  exists l,
    fst (Services.GetConfigurations LIKE s page pageSize search) = (Some l, None) /\
    Services.page l = p /\ Services.page_size l = ps /\
    Services.total l = Z.of_nat (length all) /\
    Services.data l = take (Z.to_nat ps) (drop (Z.to_nat ((p - 1) * ps)) all) /\
    ((Services.total_pages l - 1) * ps < Services.total l <= Services.total_pages l * ps)%Z /\
    (Services.data l = [] <-> (Services.total_pages l < p)%Z) /\
    all ≡ₚ filter (fun c => DeletedAt c = None /\ matches LIKE search c = true)
                  (Gorm.table (db dao)) /\
    Sorted (fun c d => (CreatedAt d <= CreatedAt c)%Z) all.
Proof.
  intros dao Ho1 Ho2 Hpage Hlen p ps all.
  unfold Services.GetConfigurations. rewrite dao_listing_cases. fold dao.
  cbv zeta. rewrite Ho1, Ho2.
  assert (Hp : (if bool_decide (page < 1)%Z then 1%Z else page) = p).
  { unfold p. destruct (bool_decide (page < 1)%Z) eqn:H;
      [apply bool_decide_eq_true in H | apply bool_decide_eq_false in H]; lia. }
  assert (Hps : (if bool_decide (pageSize < 1)%Z || bool_decide (pageSize > 100)%Z
                 then 20%Z else pageSize) = ps).
  { unfold ps.
    destruct (bool_decide (pageSize < 1)%Z) eqn:H1;
      destruct (bool_decide (pageSize > 100)%Z) eqn:H2;
      destruct (bool_decide (1 <= pageSize <= 100)%Z) eqn:H3; simpl; try reflexivity;
      repeat match goal with
             | H : bool_decide _ = true |- _ => apply bool_decide_eq_true in H
             | H : bool_decide _ = false |- _ => apply bool_decide_eq_false in H
             end; lia. }
  rewrite Hp, Hps.
  assert (Hps1 : (1 <= ps <= 100)%Z).
  { unfold ps. destruct (bool_decide (1 <= pageSize <= 100)%Z) eqn:H;
      [apply bool_decide_eq_true in H; exact H | lia]. }
  assert (Hp1 : (1 <= p < 2 ^ 56)%Z) by (unfold p; lia).
  pose proof (selected_length (matches LIKE search) (Gorm.table (db dao))) as Hsel.
  fold all. set (total := Z.of_nat (length (Gorm.selected _ _))).
  assert (Htot : total = Z.of_nat (length all))
    by (unfold total, all; now rewrite listing_length).
  assert (Htr : (0 <= total < 2 ^ 62)%Z) by (unfold total; lia).
  assert (Hoff : int64 (int64 (p - 1) * ps) = ((p - 1) * ps)%Z).
  { rewrite (int64_small (p - 1)) by lia. apply int64_small. nia. }
  assert (Htp : Z.quot (int64 (int64 (total + ps) - 1)) ps = ((total + ps - 1) / ps)%Z).
  { rewrite (int64_small (total + ps)) by lia.
    rewrite int64_small by lia. apply Z.quot_div_nonneg; lia. }
  rewrite Hoff, Htp, window_take_drop by nia.
  eexists. split; [reflexivity|]. simpl.
  split; [reflexivity|]. split; [reflexivity|]. split; [exact Htot|].
  split; [reflexivity|].
  pose proof (Z.mul_div_le (total + ps - 1) ps ltac:(lia)) as Hq1.
  pose proof (Z.mul_succ_div_gt (total + ps - 1) ps ltac:(lia)) as Hq2.
  set (tp := ((total + ps - 1) / ps)%Z) in *.
  split; [nia|]. split.
  - rewrite take_drop_nil by lia.
    assert (Hnn : (0 <= (p - 1) * ps)%Z) by nia.
    split; intros H.
    + assert (total <= (p - 1) * ps)%Z by lia. nia.
    + assert (total <= (p - 1) * ps)%Z by nia. lia.
  - split; [apply listing_Permutation|].
    unfold all, listing. apply (Sorted_merge_sort Gorm.by_created_at_desc).
Qed.

Lemma listing_pages_witness :
  exists l,
    fst (Services.GetConfigurations whole_text service_three 2 1 "") = (Some l, None) /\
    Services.data l = [mkConfiguration 1 "build" "timeout" "30" "" 10 10 None] /\
    Services.total l = 2%Z.
Proof.
  destruct (listing_pages whole_text service_three 2 1 "" eq_refl eq_refl
              ltac:(reflexivity) ltac:(reflexivity))
    as (l & H & _ & _ & Htotal & Hdata & _).
  exists l. split; [exact H|].
  split; [rewrite Hdata | rewrite Htotal]; reflexivity.
Defined.

(** ** Fetching through the service and the controller *)

Lemma GetConfiguration_errors now dao namespace key :
  match snd (fst (GetConfiguration now dao namespace key)) with
  | None => exists c, fst (fst (GetConfiguration now dao namespace key)) = Some c
  | Some e =>
    fst (fst (GetConfiguration now dao namespace key)) = None /\
    (e = ErrRecordNotFound \/ exists msg, e = DBError msg)
  end.
Proof.
  assert (Hrs : forall dao1,
             match snd (fst (read_store now dao1 namespace key)) with
             | None => exists c, fst (fst (read_store now dao1 namespace key)) = Some c
             | Some e =>
               fst (fst (read_store now dao1 namespace key)) = None /\
               (e = ErrRecordNotFound \/ exists msg, e = DBError msg)
             end).
  { intros dao1. pose proof (read_store_answer now dao1 namespace key) as H.
    rewrite store_answer_cases in H.
    destruct (read_store now dao1 namespace key) as [[res err] dao2]. simpl in *.
    destruct (fst (next_outcome _)); [|destruct (Gorm.lookup_key _ _ _)];
      injection H as -> ->; eauto. }
  destruct (redis dao) as [r|] eqn:Hr.
  - destruct (Redis.Get now (cacheKey namespace key) r) as [[cached [e|]] r1] eqn:Hg.
    + rewrite (GetConfiguration_fall_through _ _ _ _ _ _ _ _ Hr Hg). apply Hrs.
    + rewrite (GetConfiguration_hit _ _ _ _ _ _ _ Hr Hg). simpl. eauto.
  - rewrite (GetConfiguration_nil _ _ _ _ Hr). apply Hrs.
Qed.

(** X12. [GetConfiguration] and [GetSpecificConfiguration] of the service
    refuse an empty namespace, then an empty key, before any call to the
    cache or the store.  Otherwise they return the record and the error of
    the data-access object as they are, and add one line to the log: a
    configuration that is missing comes back as [ErrRecordNotFound], and
    never as [NotFoundError]. *)
Theorem service_fetch_passes_errors_through now s namespace key :
  let answer (result : option Configuration * option error * Services.ConfigService) :=
      let '(res, err, s') := result in
      if bool_decide (namespace = "") then
        res = None /\ s' = s /\
        err = Some (ValidationError "namespace" "namespace is required")
      else if bool_decide (key = "") then
        res = None /\ s' = s /\
        err = Some (ValidationError "key" "key is required")
      else
        let '(r, e, dao') := GetConfiguration now (Services.configDAO s) namespace key in
        res = r /\ err = e /\
        db (Services.configDAO s') = db dao' /\
        redis (Services.configDAO s') = redis dao' /\
        length (log (Services.configDAO s')) = S (length (log dao')) /\
        (forall msg, err <> Some (NotFoundError msg)) /\
        (err = None <-> res <> None) in
  answer (Services.GetConfiguration now s namespace key) /\
  answer (Services.GetSpecificConfiguration now s namespace key).
Proof.
  intros answer. unfold answer, Services.GetConfiguration, Services.GetSpecificConfiguration.
  change (GetSpecificConfiguration now (Services.configDAO s) namespace key)
    with (GetConfiguration now (Services.configDAO s) namespace key).
  destruct (bool_decide (namespace = "")); [auto|].
  destruct (bool_decide (key = "")); [auto|].
  pose proof (GetConfiguration_errors now (Services.configDAO s) namespace key) as H.
  destruct (GetConfiguration now (Services.configDAO s) namespace key)
    as [[r [e|]] dao']; simpl in H.
  - destruct H as [-> He].
    assert (forall msg, Some e <> Some (NotFoundError msg))
      by (intros msg Hm; injection Hm as ->; destruct He as [|[? ?]]; discriminate).
    split; simpl; rewrite length_app; simpl;
      repeat split; auto; try lia; try discriminate; try congruence.
  - destruct H as [c ->].
    split; simpl; rewrite length_app; simpl;
      repeat split; auto; try lia; try discriminate; try congruence.
Qed.

(** X13. The answer of the controller to
    [GET /configurations/{namespace}/{key}].  An empty namespace or key is
    answered 400 with the name of the field.  Otherwise the answer follows
    the data-access object: 200 with the record as ["data"] when it
    returns one, and 500 with the message ["Internal server error"] when
    it returns an error, whichever it is.  A configuration that is missing
    from cache and store is therefore answered 500; the status is never
    404 and never 409. *)
Theorem controller_fetch_status now cc namespace key :
  let dao := Services.configDAO (Controllers.configService cc) in
  let resp := fst (Controllers.GetSpecificConfiguration now cc namespace key) in
  (if bool_decide (namespace = "") then
     Controllers.Status resp = 400%Z /\
     Controllers.Body resp !! "code" = Some (Controllers.PString "validation.error") /\
     Controllers.Body resp !! "field" = Some (Controllers.PString "namespace")
   else if bool_decide (key = "") then
     Controllers.Status resp = 400%Z /\
     Controllers.Body resp !! "code" = Some (Controllers.PString "validation.error") /\
     Controllers.Body resp !! "field" = Some (Controllers.PString "key")
   else
     match fst (fst (GetConfiguration now dao namespace key)) with
     | Some config =>
       Controllers.Status resp = 200%Z /\
       Controllers.Body resp !! "code" = Some (Controllers.PString "success") /\
       Controllers.Body resp !! "data" =
       Some (Controllers.PConfiguration (Some config))
     | None =>
       Controllers.Status resp = 500%Z /\
       Controllers.Body resp !! "code" = Some (Controllers.PString "internal.error") /\
       Controllers.Body resp !! "message" =
       Some (Controllers.PString "Internal server error") /\
       Controllers.Body resp !! "data" = None
     end) /\
  Controllers.Status resp <> 404%Z /\ Controllers.Status resp <> 409%Z /\
  (namespace <> "" -> key <> "" ->
   match redis dao with
   | Some r => Redis.held now (cacheKey namespace key) (Redis.entries r) = None
   | None => True
   end ->
   first_outcome (Gorm.db_outcomes (db dao)) = None ->
   Gorm.lookup_key namespace key (Gorm.table (db dao)) = None ->
   Controllers.Status resp = 500%Z).
Proof.
  intros dao resp.
  assert (Hmain :
    if bool_decide (namespace = "") then
      resp = Controllers.mkResponse 400
               {[ "code" := Controllers.PString "validation.error";
                  "message" := Controllers.PString "namespace is required";
                  "field" := Controllers.PString "namespace" ]}
    else if bool_decide (key = "") then
      resp = Controllers.mkResponse 400
               {[ "code" := Controllers.PString "validation.error";
                  "message" := Controllers.PString "key is required";
                  "field" := Controllers.PString "key" ]}
    else
      match fst (fst (GetConfiguration now dao namespace key)) with
      | Some config =>
        resp = Controllers.mkResponse 200
                 {[ "code" := Controllers.PString "success";
                    "message" :=
                      Controllers.PString "Specific configuration retrieved successfully";
                    "data" := Controllers.PConfiguration (Some config) ]}
      | None =>
        resp = Controllers.mkResponse 500
                 {[ "code" := Controllers.PString "internal.error";
                    "message" := Controllers.PString "Internal server error" ]}
      end).
  { unfold resp, Controllers.GetSpecificConfiguration, Services.GetSpecificConfiguration.
    change (GetSpecificConfiguration now (Services.configDAO (Controllers.configService cc))
                                     namespace key)
      with (GetConfiguration now dao namespace key).
    destruct (bool_decide (namespace = "")); [reflexivity|].
    destruct (bool_decide (key = "")); [reflexivity|].
    pose proof (GetConfiguration_errors now dao namespace key) as H.
    destruct (GetConfiguration now dao namespace key) as [[r [e|]] dao']; simpl in H.
    - destruct H as [-> [-> | [msg ->]]]; reflexivity.
    - destruct H as [c ->]. reflexivity. }
  split; [|split; [|split]].
  - destruct (bool_decide (namespace = "")); [rewrite Hmain; repeat split|].
    destruct (bool_decide (key = "")); [rewrite Hmain; repeat split|].
    destruct (fst (fst (GetConfiguration now dao namespace key)));
      rewrite Hmain; repeat split.
  - destruct (bool_decide (namespace = "")); [rewrite Hmain; discriminate|].
    destruct (bool_decide (key = "")); [rewrite Hmain; discriminate|].
    destruct (fst (fst (GetConfiguration now dao namespace key)));
      rewrite Hmain; discriminate.
  - destruct (bool_decide (namespace = "")); [rewrite Hmain; discriminate|].
    destruct (bool_decide (key = "")); [rewrite Hmain; discriminate|].
    destruct (fst (fst (GetConfiguration now dao namespace key)));
      rewrite Hmain; discriminate.
  - intros Hn Hk Habs Ho Hrow.
    rewrite (bool_decide_eq_false_2 _ Hn), (bool_decide_eq_false_2 _ Hk) in Hmain.
    rewrite (GetConfiguration_absent now dao namespace key Habs) in Hmain.
    rewrite store_answer_cases in Hmain. unfold first_outcome in Ho.
    rewrite Ho, Hrow in Hmain. simpl in Hmain. now rewrite Hmain.
Qed.

Lemma controller_fetch_status_witness :
  Controllers.Status
    (fst (Controllers.GetSpecificConfiguration
            0 (Controllers.mkConfigController (Services.mkConfigService dao_empty))
            "nonexistent" "x")) = 500%Z.
Proof.
  refine (proj2 (proj2 (proj2 (controller_fetch_status
            0 (Controllers.mkConfigController (Services.mkConfigService dao_empty))
            "nonexistent" "x"))) _ _ eq_refl eq_refl eq_refl); discriminate.
Defined.

(** ** Update and the fetches that follow, concluded *)

Lemma lookup_key_only namespace key t row :
  In row t ->
  Gorm.by_key namespace key row = true ->
  (forall c, In c t -> Gorm.by_key namespace key c = true -> c = row) ->
  Gorm.lookup_key namespace key t = Some row.
Proof.
  intros Hin Hrow Honly. unfold Gorm.lookup_key. apply least_id_copies.
  - intros Hnil.
    assert (H : In row (filter (fun c => Gorm.by_key namespace key c = true) t))
      by (apply In_filter_bool; auto).
    rewrite Hnil in H. exact H.
  - apply Forall_forall. intros x Hx. apply list_elem_of_In in Hx.
    apply In_filter_bool in Hx as [Hx Hb]. now apply Honly.
Qed.

(** The store after a successful full-record write of a live record, when
    no live row bears the pair of the record under another identifier:
    the lookup of the pair returns the record. *)
Lemma Save_lookup_key config d config' d' :
  Gorm.Save config d = (config', None, d') ->
  DeletedAt config = None ->
  (forall c, In c (Gorm.table d) -> DeletedAt c = None ->
             Namespace c = Namespace config -> Key c = Key config ->
             ID c = ID config') ->
  Gorm.lookup_key (Namespace config) (Key config) (Gorm.table d') = Some config'.
Proof.
  intros Hs Hlive Huniq.
  assert (Happend : forall row,
             Gorm.table d' = Gorm.table d ++ [row] ->
             config' = row ->
             Gorm.has_id (ID row) (Gorm.table d) = false ->
             row = with_ID (ID row) config ->
             Gorm.lookup_key (Namespace config) (Key config) (Gorm.table d') = Some config').
  { intros row Ht -> Hfresh Hrow. rewrite Ht.
    rewrite lookup_key_snoc.
    - assert (Hb : Gorm.by_key (Namespace config) (Key config) row = true).
      { apply by_key_true. rewrite Hrow. simpl. auto. }
      now rewrite Hb.
    - unfold Gorm.lookup_key. apply least_id_None. apply filter_none.
      intros c Hc. destruct (Gorm.by_key _ _ c) eqn:Hb; [|reflexivity].
      apply by_key_true in Hb as (Hl & Hn & Hk).
      specialize (Huniq c Hc Hl Hn Hk).
      now apply (has_id_false _ _ Hfresh) in Hc. }
  unfold Gorm.Save in Hs.
  destruct (bool_decide (ID config = 0%N)) eqn:H0.
  - apply Create_success in Hs as (Ht & _ & Hfresh & Hrow).
    now apply (Happend config').
  - destruct (next_outcome (Gorm.db_outcomes d)) as [[msg|] rest]; [discriminate|].
    destruct (Gorm.has_id (ID config) (Gorm.table d)) eqn:Hhas;
      injection Hs as <- <-; simpl.
    + apply has_id_true in Hhas as (c0 & Hc0 & Hid0).
      apply lookup_key_only.
      * unfold Gorm.replace_id. apply in_map_iff. exists c0. split; [|exact Hc0].
        now rewrite bool_decide_eq_true_2.
      * apply by_key_true. auto.
      * intros c Hc Hb. unfold Gorm.replace_id in Hc.
        apply in_map_iff in Hc as (c1 & Hc1 & Hin1).
        destruct (bool_decide (ID c1 = ID config)) eqn:Hd; [congruence|].
        apply bool_decide_eq_false in Hd. subst c1.
        apply by_key_true in Hb as (Hl & Hn & Hk).
        now specialize (Huniq c Hin1 Hl Hn Hk).
    + apply (Happend config); [reflexivity | reflexivity | exact Hhas |].
      now destruct config.
Qed.

(** C4, as stated, fails in two ways.  First, when the overwrite of the
    cache entry fails: the cache holds ["30"] for ("build", "timeout")
    from an earlier fetch, the update to ["60"] reaches the store and
    returns success, and a fetch within the five minutes that follow is
    served the old ["30"].  Second, when another live row bears the pair:
    after ("build", "timeout") and ("build", "retries") have been created,
    the update that moves the second onto the pair of the first with
    value ["60"] succeeds and is in the table, and the fetch of the pair
    that follows returns the first row with its ["30"]. *)
Lemma update_then_fetch_serves_old_value :
  (let dao := before_update [None; None; None; Some "i/o timeout"] in
   exists dao1 dao2,
     UpdateConfiguration 200 dao row60 = (row60, None, dao1) /\
     Gorm.lookup_key "build" "timeout" (Gorm.table (db dao1)) = Some row60 /\
     (200 <= 300 < 200 + 5 * Minute)%Z /\
     GetConfiguration 300 dao1 "build" "timeout" =
     (Some (mkConfiguration 0 "build" "timeout" "30" "" 0 0 None), None, dao2) /\
     "30" <> Value row60) /\
  (exists dao1 dao2,
     UpdateConfiguration 200 two_pairs row_renamed = (row_renamed, None, dao1) /\
     In row_renamed (Gorm.table (db dao1)) /\
     (200 <= 300 < 200 + 5 * Minute)%Z /\
     GetConfiguration 300 dao1 "build" "timeout" = (Some row30, None, dao2) /\
     Value row30 <> Value row_renamed).
Proof.
  split.
  - simpl. do 2 eexists. split; [reflexivity|]. split; [reflexivity|].
    split; [unfold Minute; lia|]. split; [reflexivity | discriminate].
  - do 2 eexists. split; [reflexivity|]. split; [right; left; reflexivity|].
    split; [unfold Minute; lia|]. split; [reflexivity | discriminate].
Qed.

(** C4, amended.  Let an update of a live record return success with its
    overwrite of the cache entry gone through, or without a cache, and let
    no live row of the store before the update bear the namespace and key
    of the record under another identifier than the one the record has
    after the update.  Then every fetch of the pair that follows, at
    whatever instants, returns a record with the new value or else the
    failure of a query on the store; and a fetch before the expiry of the
    entry, five minutes after the update, whose cache get goes through is
    served the new value by the cache. *)
Theorem update_then_fetches_return_new_value now dao config config' dao1 :
  UpdateConfiguration now dao config = (config', None, dao1) ->
  (forall r, redis dao = Some r -> first_outcome (Redis.redis_outcomes r) = None) ->
  DeletedAt config = None ->
  (forall c, In c (Gorm.table (db dao)) -> DeletedAt c = None ->
             Namespace c = Namespace config -> Key c = Key config ->
             ID c = ID config') ->
  (forall times,
      Forall (fresh (Value config))
             (fetches times dao1 (Namespace config) (Key config))) /\
  (forall r1 t,
      redis dao1 = Some r1 ->
      (t < now + 5 * Minute)%Z ->
      first_outcome (Redis.redis_outcomes r1) = None ->
      fst (GetConfiguration t dao1 (Namespace config) (Key config)) =
      (Some (mkConfiguration 0 (Namespace config) (Key config) (Value config) "" 0 0 None),
       None)).
Proof.
  intros Hu Hset Hlive Huniq.
  rewrite UpdateConfiguration_cases in Hu.
  pose proof (Save_keeps config (db dao)) as (_ & _ & Hv & _).
  destruct (Gorm.Save config (db dao)) as [[c [e|]] d] eqn:Hsave; [discriminate|].
  simpl in Hu, Hv.
  assert (Hc : c = config') by (destruct (redis dao); congruence).
  subst c.
  assert (Hrow : exists row,
             Gorm.lookup_key (Namespace config) (Key config) (Gorm.table d) = Some row /\
             Value row = Value config).
  { exists config'. split; [|exact Hv].
    exact (Save_lookup_key _ _ _ _ Hsave Hlive Huniq). }
  destruct (redis dao) as [r|] eqn:Hr.
  - injection Hu as <-. unfold best_effort in *.
    rewrite (Hset r eq_refl) in *. split.
    + intros times. apply fetches_settled. split; [|exact Hrow].
      simpl. intros val expiry Hl. rewrite lookup_insert_eq in Hl.
      now injection Hl as <- _.
    + intros r1 t Hr1 Ht Ho. simpl in Hr1. injection Hr1 as <-.
      erewrite GetConfiguration_hit; [reflexivity | reflexivity |].
      apply Redis_Get_hit. split; [exact Ho|]. split; [|reflexivity].
      unfold Redis.held. simpl. rewrite lookup_insert_eq.
      now rewrite bool_decide_eq_true_2.
  - injection Hu as <-. split.
    + intros times. apply fetches_settled. split; [|exact Hrow].
      simpl. now rewrite Hr.
    + intros r1 t Hr1. simpl in Hr1. congruence.
Qed.

Lemma update_then_fetches_return_new_value_witness :
  Forall (fresh "60")
         (fetches [300; 400; 900000000000]%Z
                  (snd (UpdateConfiguration 200 (before_update []) row60))
                  "build" "timeout").
Proof.
  refine (proj1 (update_then_fetches_return_new_value 200 (before_update []) row60
                   row60 (snd (UpdateConfiguration 200 (before_update []) row60))
                   eq_refl _ eq_refl _) _).
  - intros r Hr. vm_compute in Hr. injection Hr as <-. reflexivity.
  - intros c [<-|[]] _ _ _. reflexivity.
Defined.
